(** * Iris classification service: the Flask backend and the trainer

    A shallow embedding of [project/backend/app.py] (the [/health] and
    [/predict] handlers) and of [project/model/train.py]
    ([train_iris_model]), with the properties of the request validation,
    of the success response and of the artifact file.

    Python values are the ones [json.loads] produces; Python floats are
    IEEE binary64 values, taken from the Standard Library's [SpecFloat];
    a Python [dict] is a [gmap] with string keys. Calls that can raise
    return a [result]; [try]/[except] is a match on the exception class. *)

From Stdlib Require Import ZArith Bool Lia Ascii SpecFloat.
From Stdlib.Strings Require Byte.
From stdpp Require Import gmap strings list fin_maps.

Set Warnings "-register-all".
Local Open Scope Z_scope.
Local Open Scope string_scope.

(** ** Python values, exceptions and builtins *)

Module Py.

(** The exception classes the two programs distinguish. Every other class
    (werkzeug's HTTP errors, scikit-learn's errors, [AttributeError], ...)
    is [OtherException]; all of them derive from [Exception]. *)
Inductive exn_class : Type :=
| ValueError | TypeError | OverflowError | KeyError | IndexError
| FileNotFoundError | OtherException.

(** An exception object: its class and [str(e)]. *)
Record exn : Type := Exn { exn_cls : exn_class; exn_str : string }.

Definition exn_class_eqb (a b : exn_class) : bool :=
  match a, b with
  | ValueError, ValueError | TypeError, TypeError
  | OverflowError, OverflowError | KeyError, KeyError
  | IndexError, IndexError | FileNotFoundError, FileNotFoundError
  | OtherException, OtherException => true
  | _, _ => false
  end.

(** The outcome of a call: a value, or a raised exception. *)
Inductive result (A : Type) : Type :=
| Ok (a : A)
| Raise (e : exn).
Arguments Ok {A} a.
Arguments Raise {A} e.

#[export] Instance result_ret : MRet result := fun _ a => Ok a.
#[export] Instance result_bind : MBind result := fun _ _ k r =>
  match r with
  | Ok a => k a
  | Raise e => Raise e
  end.

(** An [except (classes):] clause catches the exception. *)
Definition caught_by (e : exn) (classes : list exn_class) : bool :=
  existsb (exn_class_eqb (exn_cls e)) classes.

(** [try: body] with a bare [except: handler], which catches every
    exception. *)
Definition try_except_all {A} (body : result A) (handler : result A) : result A :=
  match body with
  | Ok a => Ok a
  | Raise _ => handler
  end.

(** A Python [float]: an IEEE binary64 value. The floats Python builds are
    the valid ones (canonical mantissa, exponent in range), on which the
    comparisons below are the numeric order. *)
Definition pyfloat : Type := spec_float.

Definition prec : Z := 53.
Definition emax : Z := 1024.

Definition float_valid (a : pyfloat) : bool := valid_binary prec emax a.

Definition float_zero : pyfloat := S754_zero false.
Definition float_one : pyfloat := S754_finite false 4503599627370496 (-52).

(** [a <= b], [a < b] and [a > b] on floats; all false on a NaN. *)
Definition float_le (a b : pyfloat) : bool := SFleb a b.
Definition float_lt (a b : pyfloat) : bool := SFltb a b.
Definition float_gt (a b : pyfloat) : bool := SFltb b a.

Definition float_is_nan (a : pyfloat) : bool :=
  match a with
  | S754_nan => true
  | _ => false
  end.

(** The values of a parsed JSON document. *)
Inductive pyval : Type :=
| PNone
| PBool (b : bool)
| PInt (z : Z)
| PFloat (f : pyfloat)
| PStr (s : string)
| PList (l : list pyval)
| PDict (d : gmap string pyval).

(** The name Python prints for the type of a value. *)
Definition type_name (v : pyval) : string :=
  match v with
  | PNone => "NoneType"
  | PBool _ => "bool"
  | PInt _ => "int"
  | PFloat _ => "float"
  | PStr _ => "str"
  | PList _ => "list"
  | PDict _ => "dict"
  end.

(** Truth value of an object, as [not data] tests it. *)
Definition truthy (v : pyval) : bool :=
  match v with
  | PNone => false
  | PBool b => b
  | PInt z => negb (Z.eqb z 0)
  | PFloat f =>
      match f with
      | S754_zero _ => false
      | _ => true
      end
  | PStr s => negb (String.eqb s EmptyString)
  | PList l =>
      match l with
      | [] => false
      | _ => true
      end
  | PDict d => negb (bool_decide (d = ∅))
  end.

(** [needle in hay] on strings: [needle] occurs as a substring. *)
Fixpoint is_substring (needle hay : string) : bool :=
  String.prefix needle hay ||
  match hay with
  | EmptyString => false
  | String _ rest => is_substring needle rest
  end.

(** [x == field] for a string [field]: only an equal string is equal. *)
Definition eq_str (field : string) (x : pyval) : bool :=
  match x with
  | PStr s => String.eqb s field
  | _ => false
  end.

(** [field in data] for a string [field]. A dict tests its keys, a list its
    elements, a string its substrings; the other values are no containers. *)
Definition contains (data : pyval) (field : string) : result bool :=
  match data with
  | PDict d => Ok (bool_decide (is_Some (d !! field)))
  | PList l => Ok (existsb (eq_str field) l)
  | PStr s => Ok (is_substring field s)
  | v => Raise (Exn TypeError
                  ("argument of type '" ++ type_name v ++ "' is not iterable"))
  end.

(** [data[key]] for a string [key]. *)
Definition getitem (data : pyval) (key : string) : result pyval :=
  match data with
  | PDict d =>
      match d !! key with
      | Some v => Ok v
      | None => Raise (Exn KeyError ("'" ++ key ++ "'"))
      end
  | PList _ =>
      Raise (Exn TypeError "list indices must be integers or slices, not str")
  | PStr _ =>
      Raise (Exn TypeError "string indices must be integers, not 'str'")
  | v => Raise (Exn TypeError
                  ("'" ++ type_name v ++ "' object is not subscriptable"))
  end.

(** [l[i]] on a list, for an integer [i]: a negative index counts from the
    end, an index outside [-len, len) raises [IndexError]. *)
Definition list_getitem {A} (l : list A) (i : Z) : result A :=
  let n := Z.of_nat (length l) in
  let j := if Z.ltb i 0 then i + n else i in
  if Z.ltb j 0 || Z.leb n j then Raise (Exn IndexError "list index out of range")
  else
    match l !! Z.to_nat j with
    | Some a => Ok a
    | None => Raise (Exn IndexError "list index out of range")
    end.

(** [float(z)] for an [int]: the nearest binary64 value, ties to even;
    [OverflowError] when that is out of range. *)
Definition float_of_int (z : Z) : result pyfloat :=
  match binary_normalize prec emax z 0 false with
  | S754_infinity _ =>
      Raise (Exn OverflowError "int too large to convert to float")
  | f => Ok f
  end.

(** [max(xs)]: the first element no later one is greater than;
    [ValueError] on an empty sequence. *)
Definition max_step (cur x : pyfloat) : pyfloat :=
  if float_gt x cur then x else cur.

Definition py_max (xs : list pyfloat) : result pyfloat :=
  match xs with
  | [] => Raise (Exn ValueError "max() arg is an empty sequence")
  | x :: rest => Ok (fold_left max_step rest x)
  end.

(** [repr] of a list of strings, as an f-string prints it. The quoting is
    that of strings without quotes, backslashes or control characters. *)
Definition repr_str (s : string) : string := "'" ++ s ++ "'".

Fixpoint join (sep : string) (l : list string) : string :=
  match l with
  | [] => EmptyString
  | [s] => s
  | s :: rest => s ++ sep ++ join sep rest
  end.

Definition repr_str_list (l : list string) : string :=
  "[" ++ join ", " (map repr_str l) ++ "]".

Section Float.

(** [float(s)] for a string: Python's numeric grammar and its decimal to
    binary rounding are the interpreter's; [None] is [ValueError]. *)
Variable str_to_float : string -> option pyfloat.

(** The builtin [float(v)]. *)
Definition float (v : pyval) : result pyfloat :=
  match v with
  | PFloat f => Ok f
  | PInt z => float_of_int z
  | PBool b => Ok (if b then float_one else float_zero)
  | PStr s =>
      match str_to_float s with
      | Some f => Ok f
      | None => Raise (Exn ValueError
                         ("could not convert string to float: " ++ repr_str s))
      end
  | v => Raise (Exn TypeError
                  ("float() argument must be a string or a real number, not '"
                     ++ type_name v ++ "'"))
  end.

End Float.

End Py.

(** ** The server: [project/backend/app.py] *)

Module App.
Import Py.

(** Iris class names for human-readable output. *)
Definition IRIS_CLASSES : list string := ["Setosa"; "Versicolor"; "Virginica"].

(** The object [joblib.load] returns, seen through the two methods the
    handler calls on it: [model.predict(input_array)[0]] as an integer
    index, and [model.predict_proba(input_array)[0]] as a row of floats.
    Either call may raise; a classifier without probability estimates
    raises on the second, and a label that is no integer, which the lookup
    in the label table rejects, counts as a raising first call. *)
Record Classifier : Type := {
  clf_predict : list pyfloat -> result Z;
  clf_predict_proba : list pyfloat -> result (list pyfloat)
}.

(** A request, seen through [request.get_json()]: the parsed body (or
    [None]), or the exception Flask raises for it. *)
Record Request : Type := { get_json : result pyval }.

(** A response: the JSON body and the status code. *)
Definition Response : Type := (pyval * Z)%type.

Definition status (r : Response) : Z := snd r.
Definition body (r : Response) : pyval := fst r.

(** A key of the JSON object in a response body. *)
Definition body_field (r : Response) (key : string) : option pyval :=
  match body r with
  | PDict d => d !! key
  | _ => None
  end.

Definition jsonify (fields : list (string * pyval)) : pyval :=
  PDict (list_to_map fields).

(** [load_model]: the global [model] after the call, and the flag returned.
    Both [except] clauses leave [model] as it was. *)
Definition load_model (joblib_load : result Classifier)
    (model : option Classifier) : option Classifier * bool :=
  match joblib_load with
  | Ok m => (Some m, true)
  | Raise _ => (model, false)
  end.

(** [GET /health]. *)
Definition health (model : option Classifier) : Response :=
  let model_status :=
    match model with
    | Some _ => "loaded"
    | None => "not loaded"
    end in
  (jsonify [("status", PStr "healthy"); ("model_status", PStr model_status)], 200).

Definition required_fields : list string :=
  ["sepal_length"; "sepal_width"; "petal_length"; "petal_width"].

(** [[field for field in fields if field not in data]]. *)
Fixpoint missing_of (data : pyval) (fields : list string) : result (list string) :=
  match fields with
  | [] => Ok []
  | field :: rest =>
      present ← contains data field;
      tail ← missing_of data rest;
      mret (if present : bool then tail else field :: tail)
  end.

Definition not_loaded_response : Response :=
  (jsonify [("error", PStr "Model not loaded. Please ensure the model file exists.")], 500).

Definition no_json_response : Response :=
  (jsonify [("error", PStr "No JSON data provided")], 400).

Definition missing_fields_response (missing_fields : list string) : Response :=
  (jsonify [("error", PStr ("Missing required fields: " ++ repr_str_list missing_fields));
            ("required_fields", PList (map PStr required_fields))], 400).

Definition invalid_numbers_response : Response :=
  (jsonify [("error", PStr "All input values must be valid numbers")], 400).

Definition not_positive_response : Response :=
  (jsonify [("error", PStr "All measurements must be positive numbers")], 400).

Definition failed_response (e : exn) : Response :=
  (jsonify [("error", PStr ("Prediction failed: " ++ exn_str e))], 500).

Definition success_response (prediction_class : string) (prediction_idx : Z)
    (confidence : pyval) (f0 f1 f2 f3 : pyfloat) : Response :=
  (jsonify [("prediction", PStr prediction_class);
            ("prediction_index", PInt prediction_idx);
            ("confidence", confidence);
            ("input_data", jsonify [("sepal_length", PFloat f0);
                                    ("sepal_width", PFloat f1);
                                    ("petal_length", PFloat f2);
                                    ("petal_width", PFloat f3)]);
            ("all_classes", PList (map PStr IRIS_CLASSES))], 200).

Section Server.

Variable str_to_float : string -> option pyfloat.

(** [float(data[key])]. *)
Definition field_float (data : pyval) (key : string) : result pyfloat :=
  getitem data key ≫= float str_to_float.

(** The list built inside the inner [try], its elements evaluated in
    order. *)
Definition read_features (data : pyval) : result (list pyfloat) :=
  f0 ← field_float data "sepal_length";
  f1 ← field_float data "sepal_width";
  f2 ← field_float data "petal_length";
  f3 ← field_float data "petal_width";
  mret [f0; f1; f2; f3].

(** The steps after validation: classify, look the label up, estimate
    the confidence, build the response. *)
Definition classify (model : Classifier) (features : list pyfloat) : result Response :=
  prediction_idx ← clf_predict model features;
  prediction_class ← list_getitem IRIS_CLASSES prediction_idx;
  confidence ← try_except_all
                 (probabilities ← clf_predict_proba model features;
                  m ← py_max probabilities;
                  mret (PFloat m))
                 (mret PNone);
  f0 ← list_getitem features 0;
  f1 ← list_getitem features 1;
  f2 ← list_getitem features 2;
  f3 ← list_getitem features 3;
  mret (success_response prediction_class prediction_idx confidence f0 f1 f2 f3).

(** The body of the outer [try] of [predict]. *)
Definition predict_try (model : option Classifier) (request : Request) : result Response :=
  match model with
  | None => mret not_loaded_response
  | Some model =>
      data ← get_json request;
      if negb (truthy data) then mret no_json_response
      else
        missing_fields ← missing_of data required_fields;
        match missing_fields with
        | _ :: _ => mret (missing_fields_response missing_fields)
        | [] =>
            match read_features data with
            | Raise e =>
                if caught_by e [ValueError; TypeError]
                then mret invalid_numbers_response
                else Raise e
            | Ok features =>
                if existsb (fun f => float_le f float_zero) features
                then mret not_positive_response
                else classify model features
            end
        end
  end.

(** [POST /predict]: the outer [except Exception] turns whatever the body
    raised into a 500 response. *)
Definition predict (model : option Classifier) (request : Request) : Response :=
  match predict_try model request with
  | Ok response => response
  | Raise e => failed_response e
  end.

End Server.

(** A required name is absent from a JSON object. *)
Definition absent (d : gmap string pyval) (field : string) : bool :=
  negb (bool_decide (is_Some (d !! field))).

(** The confidence computed by the inner [try] with its bare [except]. *)
Definition confidence_of (clf : Classifier) (features : list pyfloat) : pyval :=
  match clf_predict_proba clf features with
  | Ok probabilities =>
      match py_max probabilities with
      | Ok m => PFloat m
      | Raise _ => PNone
      end
  | Raise _ => PNone
  end.

(** The four required fields of a JSON object hold the values [v0] to
    [v3], in the order of [required_fields]. *)
Definition has_fields (d : gmap string pyval) (v0 v1 v2 v3 : pyval) : Prop :=
  d !! "sepal_length" = Some v0 /\ d !! "sepal_width" = Some v1 /\
  d !! "petal_length" = Some v2 /\ d !! "petal_width" = Some v3.

(** [float] applied to the values of the four fields, in order: the first
    conversion that raises ends the block. *)
Definition convert_all (str_to_float : string -> option pyfloat)
    (v0 v1 v2 v3 : pyval) : result (list pyfloat) :=
  f0 ← float str_to_float v0;
  f1 ← float str_to_float v1;
  f2 ← float str_to_float v2;
  f3 ← float str_to_float v3;
  mret [f0; f1; f2; f3].

(** *** The validation order in the words of the specification

    A field of a payload is a key of a JSON object; any other payload has
    no fields. *)
Definition field_of (data : pyval) (field : string) : option pyval :=
  match data with
  | PDict d => d !! field
  | _ => None
  end.

Definition some_field_missing (data : pyval) : Prop :=
  exists field, field ∈ required_fields /\ field_of data field = None.

Definition some_field_not_a_number (str_to_float : string -> option pyfloat)
    (data : pyval) : Prop :=
  exists field v, field ∈ required_fields /\ field_of data field = Some v /\
                  forall f, float str_to_float v <> Ok f.

Definition some_field_not_positive (str_to_float : string -> option pyfloat)
    (data : pyval) : Prop :=
  exists field v f, field ∈ required_fields /\ field_of data field = Some v /\
                    float str_to_float v = Ok f /\ float_le f float_zero = true.

(** The five checks in order, each deciding the response when it is the
    first to fail, for every request whose body parses. *)
Definition checks_in_order_as_stated : Prop :=
  forall (str_to_float : string -> option pyfloat) (model : option Classifier)
         (request : Request) (data : pyval),
    get_json request = Ok data ->
    (model = None ->
     predict str_to_float model request = not_loaded_response) /\
    (model <> None -> truthy data = false ->
     predict str_to_float model request = no_json_response) /\
    (model <> None -> truthy data = true -> some_field_missing data ->
     status (predict str_to_float model request) = 400 /\
     is_Some (body_field (predict str_to_float model request) "required_fields")) /\
    (model <> None -> truthy data = true -> ~ some_field_missing data ->
     some_field_not_a_number str_to_float data ->
     predict str_to_float model request = invalid_numbers_response) /\
    (model <> None -> truthy data = true -> ~ some_field_missing data ->
     ~ some_field_not_a_number str_to_float data ->
     some_field_not_positive str_to_float data ->
     predict str_to_float model request = not_positive_response).

(** *** The success response in the words of the specification

    A field is a positive number when it is a JSON number above zero. *)
Definition positive_number (v : pyval) : Prop :=
  match v with
  | PInt z => 0 < z
  | PFloat f => float_lt float_zero f = true
  | _ => False
  end.

(** A classifier that answers every sample with a label index. *)
Definition answers_a_label (clf : Classifier) : Prop :=
  forall features, exists idx, clf_predict clf features = Ok idx /\ 0 <= idx <= 2.

(** Every request with four positive numbers, sent to a server whose loaded
    model is among [loaded], gets the success response with an index from 0
    to 2 and the label at that index. *)
Definition success_as_stated (loaded : Classifier -> Prop) : Prop :=
  forall (str_to_float : string -> option pyfloat) (clf : Classifier)
         (request : Request) (d : gmap string pyval) (v0 v1 v2 v3 : pyval),
    loaded clf ->
    get_json request = Ok (PDict d) ->
    has_fields d v0 v1 v2 v3 ->
    positive_number v0 -> positive_number v1 ->
    positive_number v2 -> positive_number v3 ->
    exists idx label confidence f0 f1 f2 f3,
      (idx = 0 \/ idx = 1 \/ idx = 2) /\
      IRIS_CLASSES !! Z.to_nat idx = Some label /\
      predict str_to_float (Some clf) request =
        success_response label idx confidence f0 f1 f2 f3.

(** Sample inputs: a linear SVC without probability estimates that answers
    class 0, a string conversion that knows no literal, and the floats 5.1,
    3.5, 1.4 and 0.2. *)
Definition sample_classifier : Classifier := {|
  clf_predict := fun _ => Ok 0;
  clf_predict_proba := fun _ =>
    Raise (Exn OtherException "predict_proba is not available when probability=False")
|}.

Definition no_literal : string -> option pyfloat := fun _ => None.

Definition f5_1 : pyfloat := S754_finite false 5742089524897382 (-50).
Definition f3_5 : pyfloat := S754_finite false 7881299347898368 (-51).
Definition f1_4 : pyfloat := S754_finite false 6305039478318694 (-52).
Definition f0_2 : pyfloat := S754_finite false 7205759403792794 (-55).

(** The floats 0.7 and 0.1. *)
Definition f0_7 : pyfloat := S754_finite false 6305039478318694 (-53).
Definition f0_1 : pyfloat := S754_finite false 7205759403792794 (-56).

(** A classifier with probability estimates, which answers class 1. *)
Definition sample_proba_classifier : Classifier := {|
  clf_predict := fun _ => Ok 1;
  clf_predict_proba := fun _ => Ok [f0_1; f0_7; f0_2]
|}.

(** A body whose first field is an integer beyond the range of a float and
    whose second field is [null]. *)
Definition overflow_payload : gmap string pyval :=
  list_to_map [("sepal_length", PInt (10 ^ 400)); ("sepal_width", PNone);
               ("petal_length", PInt 1); ("petal_width", PInt 1)].

(** A body whose second field is [null]. *)
Definition null_payload : gmap string pyval :=
  list_to_map [("sepal_length", PFloat f5_1); ("sepal_width", PNone);
               ("petal_length", PFloat f1_4); ("petal_width", PFloat f0_2)].

(** A body with a zero measurement. *)
Definition zero_payload : gmap string pyval :=
  list_to_map [("sepal_length", PFloat f5_1); ("sepal_width", PFloat f3_5);
               ("petal_length", PFloat f1_4); ("petal_width", PInt 0)].

(** A classifier that answers 3, an index the label table does not have. *)
Definition unlabelled_classifier : Classifier := {|
  clf_predict := fun _ => Ok 3;
  clf_predict_proba := fun _ => Ok []
|}.

(** A body whose petal width is the positive integer 2^1024. *)
Definition large_integer_payload : gmap string pyval :=
  list_to_map [("sepal_length", PFloat f5_1); ("sepal_width", PFloat f3_5);
               ("petal_length", PFloat f1_4); ("petal_width", PInt (2 ^ 1024))].

(** The body of the specification's end-to-end sample. *)
Definition sample_payload : gmap string pyval :=
  list_to_map [("sepal_length", PFloat f5_1); ("sepal_width", PFloat f3_5);
               ("petal_length", PFloat f1_4); ("petal_width", PFloat f0_2)].

(** *** The other routes and the start of the server *)







(** *** The paths through [predict]

    One constructor for each [return] of the handler and for each place an
    exception can leave the outer [try]. *)
Inductive path (str_to_float : string -> option pyfloat) :
    option Classifier -> Request -> Response -> Prop :=
| path_not_loaded request :
    path str_to_float None request not_loaded_response
| path_unreadable clf request e :
    get_json request = Raise e ->
    path str_to_float (Some clf) request (failed_response e)
| path_no_json clf request data :
    get_json request = Ok data -> truthy data = false ->
    path str_to_float (Some clf) request no_json_response
| path_not_container clf request data e :
    get_json request = Ok data -> truthy data = true ->
    missing_of data required_fields = Raise e ->
    path str_to_float (Some clf) request (failed_response e)
| path_missing clf request data field rest :
    get_json request = Ok data -> truthy data = true ->
    missing_of data required_fields = Ok (field :: rest) ->
    path str_to_float (Some clf) request (missing_fields_response (field :: rest))
| path_invalid clf request data e :
    get_json request = Ok data -> truthy data = true ->
    missing_of data required_fields = Ok [] ->
    read_features str_to_float data = Raise e ->
    caught_by e [ValueError; TypeError] = true ->
    path str_to_float (Some clf) request invalid_numbers_response
| path_conversion_failed clf request data e :
    get_json request = Ok data -> truthy data = true ->
    missing_of data required_fields = Ok [] ->
    read_features str_to_float data = Raise e ->
    caught_by e [ValueError; TypeError] = false ->
    path str_to_float (Some clf) request (failed_response e)
| path_not_positive clf request data features :
    get_json request = Ok data -> truthy data = true ->
    missing_of data required_fields = Ok [] ->
    read_features str_to_float data = Ok features ->
    existsb (fun f => float_le f float_zero) features = true ->
    path str_to_float (Some clf) request not_positive_response
| path_classifier_failed clf request data features e :
    get_json request = Ok data -> truthy data = true ->
    missing_of data required_fields = Ok [] ->
    read_features str_to_float data = Ok features ->
    existsb (fun f => float_le f float_zero) features = false ->
    clf_predict clf features = Raise e ->
    path str_to_float (Some clf) request (failed_response e)
| path_no_label clf request data features idx e :
    get_json request = Ok data -> truthy data = true ->
    missing_of data required_fields = Ok [] ->
    read_features str_to_float data = Ok features ->
    existsb (fun f => float_le f float_zero) features = false ->
    clf_predict clf features = Ok idx ->
    list_getitem IRIS_CLASSES idx = Raise e ->
    path str_to_float (Some clf) request (failed_response e)
| path_classified clf request data f0 f1 f2 f3 idx label :
    get_json request = Ok data -> truthy data = true ->
    missing_of data required_fields = Ok [] ->
    read_features str_to_float data = Ok [f0; f1; f2; f3] ->
    existsb (fun f => float_le f float_zero) [f0; f1; f2; f3] = false ->
    clf_predict clf [f0; f1; f2; f3] = Ok idx ->
    list_getitem IRIS_CLASSES idx = Ok label ->
    path str_to_float (Some clf) request
      (success_response label idx (confidence_of clf [f0; f1; f2; f3]) f0 f1 f2 f3).

End App.

(** ** The trainer: [project/model/train.py] *)

Module Train.
Import Py.

(** What a run can change: the files of the working directory, by name,
    and the lines printed so far. *)
Record World : Type := {
  files : gmap string (list Byte.byte);
  stdout : list string
}.

(** A statement: from a world to an outcome and the world it leaves. An
    exception keeps the effects made before it was raised. *)
Definition M (A : Type) : Type := World -> result A * World.

#[export] Instance M_ret : MRet M := fun _ a w => (Ok a, w).
#[export] Instance M_bind : MBind M := fun _ _ k c w =>
  match c w with
  | (Ok a, w') => k a w'
  | (Raise e, w') => (Raise e, w')
  end.

(** A library call without effect on the files or the output. *)
Definition call {A} (r : result A) : M A := fun w => (r, w).

Definition print (line : string) : M unit := fun w =>
  (Ok tt, {| files := files w; stdout := stdout w ++ [line] |}).

Definition write_file (name : string) (content : list Byte.byte) (w : World) : World :=
  {| files := <[name := content]> (files w); stdout := stdout w |}.

(** How a [joblib.dump] to a file name can fail: before the file is opened
    for writing, or after [written] bytes of the pickle went into it. *)
Inductive dump_failure : Type :=
| OpenFailed (e : exn)
| WriteFailed (written : nat) (e : exn).

(** The [Bunch] that [load_iris] returns, arrays left abstract. *)
Record Iris (Arr : Type) : Type := {
  data : Arr;
  target : Arr;
  feature_names : list string;
  target_names : list string
}.
Arguments data {Arr} _.
Arguments target {Arr} _.
Arguments feature_names {Arr} _.
Arguments target_names {Arr} _.

(** scikit-learn, joblib and the formatting of their values, as the
    trainer uses them. [Arr] is a numpy array, [Mdl] a fitted [SVC]. *)
Record Library (Arr Mdl : Type) : Type := {
  load_iris : result (Iris Arr);
  (** [train_test_split(X, y, test_size=0.2, random_state=42, stratify=y)]:
      [X_train, X_test, y_train, y_test]. *)
  train_test_split : Arr -> Arr -> result (Arr * Arr * Arr * Arr);
  (** [SVC(kernel='linear', random_state=42)] fitted on the training set. *)
  fit : Arr -> Arr -> result Mdl;
  predict_array : Mdl -> Arr -> result Arr;
  (** [predict] on a list of rows: the list of predicted indices. *)
  predict_rows : Mdl -> list (list pyfloat) -> result (list Z);
  accuracy_score : Arr -> Arr -> result pyfloat;
  classification_report : Arr -> Arr -> list string -> result string;
  (** [joblib.dump]: the bytes of a complete pickle, and whether and where
      writing them fails. *)
  pickle : Mdl -> list Byte.byte;
  dump_fault : Mdl -> option dump_failure;
  (** [joblib.load] on the content of a file. *)
  unpickle : list Byte.byte -> result Mdl;
  show_shape : Arr -> string;
  show_rows : Arr -> string;
  show_names : list string -> string;
  show_percent : pyfloat -> string
}.
Arguments load_iris {Arr Mdl} _.
Arguments train_test_split {Arr Mdl} _ _ _.
Arguments fit {Arr Mdl} _ _ _.
Arguments predict_array {Arr Mdl} _ _ _.
Arguments predict_rows {Arr Mdl} _ _ _.
Arguments accuracy_score {Arr Mdl} _ _ _.
Arguments classification_report {Arr Mdl} _ _ _ _.
Arguments pickle {Arr Mdl} _ _.
Arguments dump_fault {Arr Mdl} _ _.
Arguments unpickle {Arr Mdl} _ _.
Arguments show_shape {Arr Mdl} _ _.
Arguments show_rows {Arr Mdl} _ _.
Arguments show_names {Arr Mdl} _ _.
Arguments show_percent {Arr Mdl} _ _.

Definition model_filename : string := "iris_model.pkl".

Definition success_line : string := "Model training completed successfully!".

(** The floats 5.1, 3.5, 1.4 and 0.2 of the sample. *)
Definition sample_data : list (list pyfloat) :=
  [[S754_finite false 5742089524897382 (-50);
    S754_finite false 7881299347898368 (-51);
    S754_finite false 6305039478318694 (-52);
    S754_finite false 7205759403792794 (-55)]].

Section Trainer.

Context {Arr Mdl : Type}.
Variable lib : Library Arr Mdl.

(** [joblib.dump(model, filename)]: the file is opened for writing, which
    creates or truncates it, and the pickle is written into it. *)
Definition joblib_dump (model : Mdl) (filename : string) : M unit := fun w =>
  match dump_fault lib model with
  | None => (Ok tt, write_file filename (pickle lib model) w)
  | Some (OpenFailed e) => (Raise e, w)
  | Some (WriteFailed written e) =>
      (Raise e, write_file filename (take written (pickle lib model)) w)
  end.

(** [joblib.load(filename)]. *)
Definition joblib_load (filename : string) : M Mdl := fun w =>
  match files w !! filename with
  | None =>
      (Raise (Exn FileNotFoundError
                ("[Errno 2] No such file or directory: " ++ repr_str filename)), w)
  | Some content => (unpickle lib content, w)
  end.

(** [iris.target_names[prediction[0]]]. *)
Definition sample_class (names : list string) (prediction : list Z) : result string :=
  idx ← list_getitem prediction 0;
  list_getitem names idx.

Definition train_iris_model : M unit :=
  print "Loading Iris dataset...";;
  iris ← call (load_iris lib);
  let X := data iris in
  let y := target iris in
  print ("Dataset shape: " ++ show_shape lib X);;
  print ("Feature names: " ++ show_names lib (feature_names iris));;
  print ("Target classes: " ++ show_names lib (target_names iris));;
  '(X_train, X_test, y_train, y_test) ← call (train_test_split lib X y);
  print ("Training set size: " ++ show_rows lib X_train);;
  print ("Testing set size: " ++ show_rows lib X_test);;
  print "Training SVM classifier...";;
  model ← call (fit lib X_train y_train);
  y_pred ← call (predict_array lib model X_test);
  accuracy ← call (accuracy_score lib y_test y_pred);
  print ("Model accuracy: " ++ show_percent lib accuracy);;
  print (String "010"%char "Classification Report:");;
  report ← call (classification_report lib y_test y_pred (target_names iris));
  print report;;
  joblib_dump model model_filename;;
  print ("Model saved as '" ++ model_filename ++ "'");;
  print (String "010"%char "Testing saved model with sample data...");;
  loaded_model ← joblib_load model_filename;
  prediction ← call (predict_rows lib loaded_model sample_data);
  predicted_class ← call (sample_class (target_names iris) prediction);
  print ("Sample prediction: " ++ predicted_class);;
  print success_line.

(** The statements of [train_iris_model] from the dump on. *)
Definition from_dump (model : Mdl) (iris : Iris Arr) : M unit :=
  joblib_dump model model_filename;;
  print ("Model saved as '" ++ model_filename ++ "'");;
  print (String "010"%char "Testing saved model with sample data...");;
  loaded_model ← joblib_load model_filename;
  prediction ← call (predict_rows lib loaded_model sample_data);
  predicted_class ← call (sample_class (target_names iris) prediction);
  print ("Sample prediction: " ++ predicted_class);;
  print success_line.

(** The lines printed before the dump, and those printed after a dump and
    a self-check that went through. *)
Definition lines_before_fit (iris : Iris Arr) (X_train X_test : Arr) : list string :=
  ["Loading Iris dataset...";
   "Dataset shape: " ++ show_shape lib (data iris);
   "Feature names: " ++ show_names lib (feature_names iris);
   "Target classes: " ++ show_names lib (target_names iris);
   "Training set size: " ++ show_rows lib X_train;
   "Testing set size: " ++ show_rows lib X_test;
   "Training SVM classifier..."].

Definition lines_before_dump (iris : Iris Arr) (X_train X_test : Arr)
    (accuracy : pyfloat) (report : string) : list string :=
  lines_before_fit iris X_train X_test ++
  ["Model accuracy: " ++ show_percent lib accuracy;
   String "010"%char "Classification Report:";
   report].

Definition lines_before_load : list string :=
  ["Model saved as 'iris_model.pkl'";
   String "010"%char "Testing saved model with sample data..."].

Definition log (lines : list string) (w : World) : World :=
  {| files := files w; stdout := stdout w ++ lines |}.

End Trainer.

(** *** The failure mode in the words of the specification

    After a run in which the fit or the serialization raised, the artifact
    file is absent or holds the complete pickle of the fitted model. *)
Definition no_partial_artifact_as_stated : Prop :=
  forall (Arr Mdl : Type) (lib : Library Arr Mdl) (w w' : World) (e : exn)
         (iris : Iris Arr) (X_train X_test y_train y_test : Arr),
    files w !! model_filename = None ->
    load_iris lib = Ok iris ->
    train_test_split lib (data iris) (target iris) =
      Ok (X_train, X_test, y_train, y_test) ->
    (fit lib X_train y_train = Raise e \/
     exists model failure,
       fit lib X_train y_train = Ok model /\ dump_fault lib model = Some failure) ->
    train_iris_model lib w = (Raise e, w') ->
    files w' !! model_filename = None \/
    exists model,
      fit lib X_train y_train = Ok model /\
      files w' !! model_filename = Some (pickle lib model).

(** Sample library: arrays and models without content, a pickle of four
    bytes. [faulty] makes the dump fail after two of them. *)
Definition sample_pickle : list Byte.byte := [Byte.x80; Byte.x04; Byte.x4e; Byte.x2e].

Definition sample_library (faulty : bool) : Library unit unit := {|
  load_iris := Ok {| data := tt; target := tt;
                     feature_names := ["sepal length (cm)"; "sepal width (cm)";
                                       "petal length (cm)"; "petal width (cm)"];
                     target_names := ["setosa"; "versicolor"; "virginica"] |};
  train_test_split := fun _ _ => Ok (tt, tt, tt, tt);
  fit := fun _ _ => Ok tt;
  predict_array := fun _ _ => Ok tt;
  predict_rows := fun _ rows => Ok (map (fun _ => 0) rows);
  accuracy_score := fun _ _ => Ok float_one;
  classification_report := fun _ _ _ => Ok "report";
  pickle := fun _ => sample_pickle;
  dump_fault := fun _ =>
    if faulty then Some (WriteFailed 2 (Exn OtherException "No space left on device"))
    else None;
  unpickle := fun content =>
    match content with
    | [Byte.x80; Byte.x04; Byte.x4e; Byte.x2e] => Ok tt
    | _ => Raise (Exn OtherException "pickle data was truncated")
    end;
  show_shape := fun _ => "(150, 4)";
  show_rows := fun _ => "120";
  show_names := fun names => repr_str_list names;
  show_percent := fun _ => "100.00%"
|}.

Definition empty_world : World := {| files := ∅; stdout := [] |}.

(** *** What a statement may change

    [w'] comes after [w]: every file but the artifact is as in [w], and the
    output of [w] is extended. *)
Definition after (w w' : World) : Prop :=
  (forall name, name <> model_filename -> files w' !! name = files w !! name) /\
  exists lines, stdout w' = (stdout w ++ lines)%list.

(** A statement keeps to the artifact: whatever it returns, the world it
    leaves comes after the one it started in. *)
Definition keeps_to_artifact {A} (c : M A) : Prop :=
  forall w, after w (snd (c w)).


(** A library whose dump goes through and whose load rejects the file. *)
Definition unloadable_library : Library unit unit := {|
  load_iris := Ok {| data := tt; target := tt;
                     feature_names := ["sepal length (cm)"; "sepal width (cm)";
                                       "petal length (cm)"; "petal width (cm)"];
                     target_names := ["setosa"; "versicolor"; "virginica"] |};
  train_test_split := fun _ _ => Ok (tt, tt, tt, tt);
  fit := fun _ _ => Ok tt;
  predict_array := fun _ _ => Ok tt;
  predict_rows := fun _ rows => Ok (map (fun _ => 0) rows);
  accuracy_score := fun _ _ => Ok float_one;
  classification_report := fun _ _ _ => Ok "report";
  pickle := fun _ => sample_pickle;
  dump_fault := fun _ => None;
  unpickle := fun _ => Raise (Exn OtherException "unsupported pickle protocol: 5");
  show_shape := fun _ => "(150, 4)";
  show_rows := fun _ => "120";
  show_names := fun names => repr_str_list names;
  show_percent := fun _ => "100.00%"
|}.

(** The [Bunch] of the sample libraries. *)
Definition sample_iris : Iris unit :=
  {| data := tt; target := tt;
     feature_names := ["sepal length (cm)"; "sepal width (cm)";
                       "petal length (cm)"; "petal width (cm)"];
     target_names := ["setosa"; "versicolor"; "virginica"] |}.

End Train.

(** ** Facts about the builtins *)

Module PyProps.
Import Py.

(** *** The order on floats *)

(** Case analysis on the comparisons of exponents and mantissas inside
    [SFcompare], leaving linear arithmetic. *)
Ltac compare_cases :=
  repeat match goal with
         | H : context [Pos.compare_cont Eq ?a ?b] |- _ =>
             change (Pos.compare_cont Eq a b) with (Pos.compare a b) in H
         | |- context [Pos.compare_cont Eq ?a ?b] =>
             change (Pos.compare_cont Eq a b) with (Pos.compare a b)
         end;
  repeat match goal with
         | H : context [Z.compare ?a ?b] |- _ =>
             destruct (Z.compare_spec a b); cbn in H
         | H : context [Pos.compare ?a ?b] |- _ =>
             destruct (Pos.compare_spec a b); cbn in H
         | |- context [Z.compare ?a ?b] =>
             destruct (Z.compare_spec a b); cbn
         | |- context [Pos.compare ?a ?b] =>
             destruct (Pos.compare_spec a b); cbn
         end;
  subst; try discriminate; try reflexivity; try lia.

(** A value above zero is not at most zero. *)
Lemma float_pos_not_le (f : pyfloat) :
  float_lt float_zero f = true -> float_le f float_zero = false.
Proof.
  unfold float_lt, float_le, float_zero, SFltb, SFleb.
  destruct f as [s|s| |s m e]; cbn; try destruct s; cbn; congruence.
Qed.

Lemma float_le_refl (a : pyfloat) :
  float_is_nan a = false -> float_le a a = true.
Proof.
  unfold float_le, SFleb.
  destruct a as [s|s| |s m e]; cbn; try destruct s; cbn;
    try discriminate; try reflexivity; intros _;
    rewrite Z.compare_refl; change (Pos.compare_cont Eq m m) with (Pos.compare m m);
    rewrite Pos.compare_refl; reflexivity.
Qed.

(** Without NaN the order is total: not below means at least. *)
Lemma float_not_gt_le (cur x : pyfloat) :
  float_is_nan cur = false -> float_is_nan x = false ->
  float_gt x cur = false -> float_le x cur = true.
Proof.
  unfold float_gt, float_le, SFltb, SFleb.
  destruct cur as [s|s| |s m e], x as [s'|s'| |s' m' e']; cbn;
    try destruct s; try destruct s'; cbn; intros Hc Hx H;
    try discriminate; try reflexivity; compare_cases.
Qed.

Lemma float_gt_le (cur x : pyfloat) :
  float_gt x cur = true -> float_le cur x = true.
Proof.
  unfold float_gt, float_le, SFltb, SFleb. intros H.
  destruct (SFcompare cur x) as [[ | | ]|]; try discriminate; reflexivity.
Qed.

Lemma float_le_lt_trans (a b c : pyfloat) :
  float_le a b = true -> float_gt c b = true -> float_le a c = true.
Proof.
  unfold float_gt, float_le, SFltb, SFleb.
  destruct a as [s|s| |s m e], b as [s'|s'| |s' m' e'], c as [t|t| |t n k]; cbn;
    try destruct s; try destruct s'; try destruct t; cbn; intros H1 H2;
    try discriminate; try reflexivity; compare_cases.
Qed.

(** *** [max] *)

Lemma max_step_eq (cur x : pyfloat) :
  max_step cur x = if float_gt x cur then x else cur.
Proof. reflexivity. Qed.

Lemma fold_max_in (rest : list pyfloat) (x : pyfloat) :
  fold_left max_step rest x ∈ x :: rest.
Proof.
  revert x. induction rest as [|y rest IH]; intros x; cbn.
  - left.
  - rewrite max_step_eq. destruct (float_gt y x).
    + right. apply IH.
    + specialize (IH x). inversion IH; subst.
      * rewrite <- H1 at 2. left.
      * right. right. assumption.
Qed.

Lemma fold_max_ge_start (rest : list pyfloat) (x a : pyfloat) :
  Forall (fun p => float_is_nan p = false) (x :: rest) ->
  float_le a x = true ->
  float_le a (fold_left max_step rest x) = true.
Proof.
  revert x. induction rest as [|y rest IH]; intros x Hn Ha; cbn; [exact Ha|].
  inversion Hn as [|? ? Hx Hrest]; subst. inversion Hrest as [|? ? Hy Hrest']; subst.
  rewrite max_step_eq. destruct (float_gt y x) eqn:E.
  - apply IH; [constructor; assumption|].
    apply float_le_lt_trans with (b := x); assumption.
  - apply IH; [constructor; assumption|exact Ha].
Qed.

Lemma fold_max_upper (rest : list pyfloat) (x : pyfloat) :
  Forall (fun p => float_is_nan p = false) (x :: rest) ->
  Forall (fun p => float_le p (fold_left max_step rest x) = true) (x :: rest).
Proof.
  revert x. induction rest as [|y rest IH]; intros x Hn.
  - inversion Hn; subst. constructor; [|constructor].
    cbn. apply float_le_refl. assumption.
  - inversion Hn as [|? ? Hx Hrest]; subst.
    inversion Hrest as [|? ? Hy Hrest']; subst.
    cbn [fold_left]. rewrite max_step_eq. destruct (float_gt y x) eqn:E.
    + specialize (IH y Hrest). constructor; [|exact IH].
      apply fold_max_ge_start; [exact Hrest|]. apply float_gt_le. exact E.
    + assert (IHx : Forall (fun p => float_le p (fold_left max_step rest x) = true) (x :: rest))
        by (apply IH; constructor; assumption).
      inversion IHx; subst. constructor; [assumption|].
      constructor; [|assumption].
      apply fold_max_ge_start; [constructor; assumption|].
      apply float_not_gt_le; assumption.
Qed.

(** [max] returns an entry of its argument, and one that no entry exceeds
    when none of them is a NaN. *)
Lemma py_max_spec (xs : list pyfloat) :
  xs <> [] ->
  exists m, py_max xs = Ok m /\ m ∈ xs /\
            (Forall (fun p => float_is_nan p = false) xs ->
             Forall (fun p => float_le p m = true) xs).
Proof.
  destruct xs as [|x rest]; [congruence|]. intros _.
  exists (fold_left max_step rest x). split; [reflexivity|]. split.
  - apply fold_max_in.
  - apply fold_max_upper.
Qed.

(** *** Indexing the label table *)

Lemma list_getitem_in_range {A} (l : list A) (i : Z) :
  0 <= i < Z.of_nat (length l) ->
  exists a, list_getitem l i = Ok a /\ l !! Z.to_nat i = Some a.
Proof.
  intros Hi. unfold list_getitem.
  destruct (Z.ltb_spec i 0); [lia|].
  destruct (Z.ltb_spec i 0); [lia|]. destruct (Z.leb_spec (Z.of_nat (length l)) i); [lia|].
  cbn. destruct (l !! Z.to_nat i) as [a|] eqn:E.
  - exists a. split; reflexivity.
  - apply lookup_ge_None in E. lia.
Qed.

(** *** [float] on integers *)

(** [float] on an integer raises nothing but [OverflowError]. *)
Lemma float_of_int_raises (z : Z) (e : exn) :
  float_of_int z = Raise e -> exn_cls e = OverflowError.
Proof.
  unfold float_of_int.
  destruct (binary_normalize prec emax z 0 false); intros [= <-]; reflexivity.
Qed.

(** *** The builtins on sample values *)

Example float_of_one : float_of_int 1 = Ok float_one.
Proof. reflexivity. Qed.

Example float_of_largest :
  float_of_int (2 ^ 1024 - 2 ^ 970 - 1) = Ok (S754_finite false 9007199254740991 971).
Proof. vm_compute. reflexivity. Qed.

Example float_of_too_large :
  float_of_int (2 ^ 1024 - 2 ^ 970) =
  Raise (Exn OverflowError "int too large to convert to float").
Proof. vm_compute. reflexivity. Qed.

Example getitem_from_end :
  list_getitem ["Setosa"; "Versicolor"; "Virginica"] (-1) = Ok "Virginica".
Proof. reflexivity. Qed.

Example getitem_out_of_range :
  list_getitem ["Setosa"; "Versicolor"; "Virginica"] (-4) =
  Raise (Exn IndexError "list index out of range").
Proof. reflexivity. Qed.

Example repr_of_names :
  repr_str_list ["sepal_width"; "petal_width"] = "['sepal_width', 'petal_width']".
Proof. reflexivity. Qed.

Example nan_is_truthy_and_not_le :
  truthy (PFloat S754_nan) = true /\ float_le S754_nan float_zero = false.
Proof. split; reflexivity. Qed.

(** The row 0.1, 0.7, 0.2. *)
Example max_of_row :
  py_max [S754_finite false 7205759403792794 (-56);
          S754_finite false 6305039478318694 (-53);
          S754_finite false 7205759403792794 (-55)] =
  Ok (S754_finite false 6305039478318694 (-53)).
Proof. reflexivity. Qed.

End PyProps.

(** ** Further facts about the builtins *)

Module PyMore.
Import Py.

(** The position a Python index denotes in a list of length [n]. *)
Lemma index_position (n i : Z) :
  - n <= i < n ->
  (if Z.ltb i 0 then i + n else i) = i mod n.
Proof.
  intros H. destruct (Z.ltb_spec i 0).
  - apply (Z.mod_unique i n (-1) (i + n)); [left; lia | lia].
  - symmetry. apply Z.mod_small. lia.
Qed.

Lemma list_getitem_inside {A} (l : list A) (i : Z) :
  - Z.of_nat (length l) <= i < Z.of_nat (length l) ->
  exists a, list_getitem l i = Ok a /\
            l !! Z.to_nat (i mod Z.of_nat (length l)) = Some a.
Proof.
  unfold list_getitem. intros H. rewrite (index_position _ _ H).
  assert (Hm : 0 <= i mod Z.of_nat (length l) < Z.of_nat (length l))
    by (apply Z.mod_pos_bound; lia).
  destruct (Z.ltb_spec (i mod Z.of_nat (length l)) 0); [lia|].
  destruct (Z.leb_spec (Z.of_nat (length l)) (i mod Z.of_nat (length l))); [lia|].
  cbn. destruct (l !! Z.to_nat (i mod Z.of_nat (length l))) as [a|] eqn:E.
  - exists a. split; reflexivity.
  - apply lookup_ge_None in E. lia.
Qed.

Lemma list_getitem_outside {A} (l : list A) (i : Z) :
  i < - Z.of_nat (length l) \/ Z.of_nat (length l) <= i ->
  list_getitem l i = Raise (Exn IndexError "list index out of range").
Proof.
  unfold list_getitem. intros H. destruct (Z.ltb_spec i 0).
  - destruct (Z.ltb_spec (i + Z.of_nat (length l)) 0); [reflexivity|lia].
  - destruct (Z.ltb_spec i 0); [lia|].
    destruct (Z.leb_spec (Z.of_nat (length l)) i); [reflexivity|lia].
Qed.

(** An index that is accepted is in range and yields an element of the
    list. *)
Lemma list_getitem_ok {A} (l : list A) (i : Z) (a : A) :
  list_getitem l i = Ok a ->
  - Z.of_nat (length l) <= i < Z.of_nat (length l) /\
  l !! Z.to_nat (i mod Z.of_nat (length l)) = Some a /\ a ∈ l.
Proof.
  intros H.
  destruct (Z_lt_dec i (- Z.of_nat (length l))) as [Hlo|Hlo].
  { rewrite list_getitem_outside in H; [discriminate|lia]. }
  destruct (Z_le_dec (Z.of_nat (length l)) i) as [Hhi|Hhi].
  { rewrite list_getitem_outside in H; [discriminate|lia]. }
  split; [lia|].
  destruct (list_getitem_inside l i) as (b & Hb & Hlook); [lia|].
  rewrite Hb in H. injection H as <-.
  split; [exact Hlook|]. apply list_elem_of_lookup. eauto.
Qed.

(** *** The membership test *)

Lemma prefix_append (s1 s2 : string) :
  String.prefix s1 s2 = true <-> exists post, s2 = s1 ++ post.
Proof.
  revert s2. induction s1 as [|a s1 IH]; intros s2; destruct s2 as [|b s2]; cbn.
  - split; [intros _; exists EmptyString; reflexivity | reflexivity].
  - split; [intros _; exists (String b s2); reflexivity | reflexivity].
  - split; [discriminate | intros [post H]; discriminate H].
  - destruct (Ascii.ascii_dec a b) as [->|Hne].
    + rewrite IH. split; intros [post H]; exists post.
      * rewrite H. reflexivity.
      * injection H as H. exact H.
    + split; [discriminate|]. intros [post H]. injection H as Hab _.
      congruence.
Qed.

Lemma is_substring_spec (needle hay : string) :
  is_substring needle hay = true <-> exists pre post, hay = pre ++ needle ++ post.
Proof.
  induction hay as [|c rest IH]; cbn [is_substring].
  - rewrite orb_false_r, prefix_append. split.
    + intros [post H]. exists EmptyString, post. exact H.
    + intros (pre & post & H). destruct pre; [|discriminate H].
      exists post. exact H.
  - rewrite orb_true_iff, prefix_append, IH. split.
    + intros [[post H]|(pre & post & H)].
      * exists EmptyString, post. exact H.
      * exists (String c pre), post. cbn. rewrite H. reflexivity.
    + intros (pre & post & H). destruct pre as [|c' pre].
      * left. exists post. exact H.
      * right. cbn in H. injection H as _ H. exists pre, post. exact H.
Qed.

Lemma eq_str_spec (field : string) (x : pyval) :
  eq_str field x = true <-> x = PStr field.
Proof.
  destruct x; cbn; try (split; [discriminate | intros H; discriminate H]).
  rewrite String.eqb_eq. split; [intros ->; reflexivity | intros [= ->]; reflexivity].
Qed.

(** X1. The membership test [field in data] of the handler: on an object
    it asks for a key, on an array for an element equal to the name, on a
    string for an occurrence of the name as a substring; on [null], a
    boolean or a number it raises TypeError. *)
Theorem contains_spec (data : pyval) (field : string) :
  match data with
  | PDict d => exists b, contains data field = Ok b /\ (b = true <-> is_Some (d !! field))
  | PList l => exists b, contains data field = Ok b /\ (b = true <-> PStr field ∈ l)
  | PStr s =>
      exists b, contains data field = Ok b /\
                (b = true <-> exists pre post, s = pre ++ field ++ post)
  | _ => exists e, contains data field = Raise e /\ exn_cls e = TypeError
  end.
Proof.
  destruct data as [ |b|z|f|s|l|d]; cbn [contains];
    try (eexists; split; reflexivity).
  - eexists. split; [reflexivity|]. apply is_substring_spec.
  - eexists. split; [reflexivity|]. rewrite existsb_exists. split.
    + intros (x & Hin & Hx). apply eq_str_spec in Hx. subst.
      apply list_elem_of_In. exact Hin.
    + intros Hin. exists (PStr field). split; [apply list_elem_of_In; exact Hin|].
      apply eq_str_spec. reflexivity.
  - eexists. split; [reflexivity|]. apply bool_decide_eq_true.
Qed.

End PyMore.
(** ** Properties of the server *)

Module AppProps.
Import Py App.

(** *** Reading the payload *)

Lemma absent_true (d : gmap string pyval) (field : string) :
  absent d field = true <-> d !! field = None.
Proof.
  unfold absent. rewrite negb_true_iff, bool_decide_eq_false.
  rewrite <- eq_None_not_Some. reflexivity.
Qed.

(** On an object the comprehension never raises: it keeps the names that
    are no keys, in the order of [fields]. *)
Lemma missing_of_dict (d : gmap string pyval) (fields : list string) :
  missing_of (PDict d) fields = Ok (List.filter (absent d) fields).
Proof.
  induction fields as [|field rest IH]; [reflexivity|].
  cbn [missing_of contains List.filter]. unfold mbind, result_bind at 1.
  rewrite IH. unfold absent.
  destruct (bool_decide (is_Some (d !! field))); reflexivity.
Qed.

(** On a number, [None] or a boolean the first membership test raises. *)
Lemma missing_of_scalar (data : pyval) (field : string) (rest : list string) :
  match data with
  | PDict _ | PList _ | PStr _ => False
  | _ => True
  end ->
  missing_of data (field :: rest) =
  Raise (Exn TypeError ("argument of type '" ++ type_name data ++ "' is not iterable")).
Proof. destruct data; intros H; try contradiction; reflexivity. Qed.

Lemma truthy_dict (d : gmap string pyval) : truthy (PDict d) = true <-> d ≠ ∅.
Proof.
  cbn. rewrite negb_true_iff, bool_decide_eq_false. reflexivity.
Qed.

(** *** The handler, unfolded along its checks *)

Section Handler.

Variable str_to_float : string -> option pyfloat.
Variable clf : Classifier.
Variable request : Request.

Lemma predict_raised (e : exn) :
  get_json request = Raise e ->
  predict str_to_float (Some clf) request = failed_response e.
Proof. intros H. unfold predict, predict_try. rewrite H. reflexivity. Qed.

Lemma predict_falsy (data : pyval) :
  get_json request = Ok data -> truthy data = false ->
  predict str_to_float (Some clf) request = no_json_response.
Proof.
  intros H Hf. unfold predict, predict_try. rewrite H.
  cbn [mbind result_bind]. rewrite Hf. reflexivity.
Qed.

Lemma predict_membership_raised (data : pyval) (e : exn) :
  get_json request = Ok data -> truthy data = true ->
  missing_of data required_fields = Raise e ->
  predict str_to_float (Some clf) request = failed_response e.
Proof.
  intros H Ht Hm. unfold predict, predict_try. rewrite H.
  cbn [mbind result_bind]. rewrite Ht, Hm. reflexivity.
Qed.

Lemma predict_missing (data : pyval) (field : string) (rest : list string) :
  get_json request = Ok data -> truthy data = true ->
  missing_of data required_fields = Ok (field :: rest) ->
  predict str_to_float (Some clf) request = missing_fields_response (field :: rest).
Proof.
  intros H Ht Hm. unfold predict, predict_try. rewrite H.
  cbn [mbind result_bind]. rewrite Ht, Hm. reflexivity.
Qed.

(** With a truthy payload in which no required name is missing, the
    response is decided by the conversion block and what follows it. *)
Lemma predict_present (data : pyval) :
  get_json request = Ok data -> truthy data = true ->
  missing_of data required_fields = Ok [] ->
  predict str_to_float (Some clf) request =
  match read_features str_to_float data with
  | Raise e =>
      if caught_by e [ValueError; TypeError]
      then invalid_numbers_response
      else failed_response e
  | Ok features =>
      if existsb (fun f => float_le f float_zero) features
      then not_positive_response
      else match classify clf features with
           | Ok response => response
           | Raise e => failed_response e
           end
  end.
Proof.
  intros H Ht Hm. unfold predict, predict_try. rewrite H.
  cbn [mbind result_bind]. rewrite Ht, Hm. cbn [negb mbind result_bind].
  destruct (read_features str_to_float data) as [features|e].
  - destruct (existsb _ features); reflexivity.
  - destruct (caught_by e _); reflexivity.
Qed.

End Handler.

(** On a vector of four features, classification succeeds exactly when the
    classifier returns an index the label table accepts. *)
Lemma classify_four (clf : Classifier) (f0 f1 f2 f3 : pyfloat) :
  classify clf [f0; f1; f2; f3] =
  match clf_predict clf [f0; f1; f2; f3] with
  | Raise e => Raise e
  | Ok idx =>
      match list_getitem IRIS_CLASSES idx with
      | Raise e => Raise e
      | Ok label =>
          Ok (success_response label idx (confidence_of clf [f0; f1; f2; f3])
                f0 f1 f2 f3)
      end
  end.
Proof.
  unfold classify, confidence_of, try_except_all, mbind, result_bind.
  destruct (clf_predict clf [f0; f1; f2; f3]) as [idx|e]; [|reflexivity].
  destruct (list_getitem IRIS_CLASSES idx) as [label|e]; [|reflexivity].
  destruct (clf_predict_proba clf [f0; f1; f2; f3]) as [probs|e].
  - destruct (py_max probs); reflexivity.
  - reflexivity.
Qed.

(** The conversion block yields four floats or raises. *)
Lemma read_features_four (str_to_float : string -> option pyfloat)
    (data : pyval) (features : list pyfloat) :
  read_features str_to_float data = Ok features ->
  exists f0 f1 f2 f3,
    features = [f0; f1; f2; f3] /\
    field_float str_to_float data "sepal_length" = Ok f0 /\
    field_float str_to_float data "sepal_width" = Ok f1 /\
    field_float str_to_float data "petal_length" = Ok f2 /\
    field_float str_to_float data "petal_width" = Ok f3.
Proof.
  unfold read_features, mbind, result_bind.
  destruct (field_float str_to_float data "sepal_length") as [f0|]; [|discriminate].
  destruct (field_float str_to_float data "sepal_width") as [f1|]; [|discriminate].
  destruct (field_float str_to_float data "petal_length") as [f2|]; [|discriminate].
  destruct (field_float str_to_float data "petal_width") as [f3|]; [|discriminate].
  intros [= <-]. exists f0, f1, f2, f3. repeat split.
Qed.


(** The names the comprehension keeps for an object. *)
Lemma missing_dict_spec (d : gmap string pyval) (field : string) :
  field ∈ List.filter (absent d) required_fields <->
  field ∈ required_fields /\ d !! field = None.
Proof.
  rewrite list_elem_of_In, filter_In, <- list_elem_of_In, absent_true.
  reflexivity.
Qed.

(** A non-empty object lacking a required field gets the missing-fields
    response. *)
Lemma predict_missing_dict (str_to_float : string -> option pyfloat)
    (clf : Classifier) (request : Request) (d : gmap string pyval) :
  get_json request = Ok (PDict d) ->
  d ≠ ∅ ->
  (exists field, field ∈ required_fields /\ d !! field = None) ->
  predict str_to_float (Some clf) request =
    missing_fields_response (List.filter (absent d) required_fields).
Proof.
  intros Hreq Hne [field Hfield].
  destruct (List.filter (absent d) required_fields) as [|m rest] eqn:E.
  - exfalso. apply missing_dict_spec in Hfield. rewrite E in Hfield.
    inversion Hfield.
  - apply predict_missing with (data := PDict d); [exact Hreq| |].
    + apply truthy_dict; exact Hne.
    + rewrite missing_of_dict, E. reflexivity.
Qed.

(** *** Object payloads with the four fields present *)

Lemma has_fields_not_empty (d : gmap string pyval) (v0 v1 v2 v3 : pyval) :
  has_fields d v0 v1 v2 v3 -> d ≠ ∅.
Proof. intros (H0 & _) ->. rewrite lookup_empty in H0. discriminate. Qed.

Lemma has_fields_none_missing (d : gmap string pyval) (v0 v1 v2 v3 : pyval) :
  has_fields d v0 v1 v2 v3 ->
  missing_of (PDict d) required_fields = Ok [].
Proof.
  intros (H0 & H1 & H2 & H3). rewrite missing_of_dict.
  unfold required_fields. cbn [List.filter]. unfold absent.
  rewrite H0, H1, H2, H3. reflexivity.
Qed.

(** The conversion block of the handler is [convert_all] on the values. *)
Lemma read_features_dict (str_to_float : string -> option pyfloat)
    (d : gmap string pyval) (v0 v1 v2 v3 : pyval) :
  has_fields d v0 v1 v2 v3 ->
  read_features str_to_float (PDict d) = convert_all str_to_float v0 v1 v2 v3.
Proof.
  intros (H0 & H1 & H2 & H3).
  unfold read_features, convert_all, field_float, getitem.
  rewrite H0, H1, H2, H3. reflexivity.
Qed.

Lemma all_positive_none_le (features : list pyfloat) :
  Forall (fun f => float_lt float_zero f = true) features ->
  existsb (fun f => float_le f float_zero) features = false.
Proof.
  induction 1 as [|f rest Hf _ IH]; [reflexivity|]. cbn.
  rewrite (PyProps.float_pos_not_le f Hf). exact IH.
Qed.

Lemma some_le_exists (features : list pyfloat) :
  (exists f, f ∈ features /\ float_le f float_zero = true) ->
  existsb (fun f => float_le f float_zero) features = true.
Proof.
  intros (f & Hin & Hle). apply existsb_exists. exists f.
  split; [apply list_elem_of_In; exact Hin | exact Hle].
Qed.

Lemma success_fields (label : string) (idx : Z) (confidence : pyval)
    (f0 f1 f2 f3 : pyfloat) :
  status (success_response label idx confidence f0 f1 f2 f3) = 200 /\
  body_field (success_response label idx confidence f0 f1 f2 f3) "prediction" =
    Some (PStr label) /\
  body_field (success_response label idx confidence f0 f1 f2 f3) "prediction_index" =
    Some (PInt idx) /\
  body_field (success_response label idx confidence f0 f1 f2 f3) "confidence" =
    Some confidence /\
  body_field (success_response label idx confidence f0 f1 f2 f3) "input_data" =
    Some (jsonify [("sepal_length", PFloat f0); ("sepal_width", PFloat f1);
                   ("petal_length", PFloat f2); ("petal_width", PFloat f3)]) /\
  body_field (success_response label idx confidence f0 f1 f2 f3) "all_classes" =
    Some (PList [PStr "Setosa"; PStr "Versicolor"; PStr "Virginica"]).
Proof. repeat split. Qed.

Section Converted.

Variable str_to_float : string -> option pyfloat.
Variable clf : Classifier.
Variable request : Request.
Variable d : gmap string pyval.
Variables v0 v1 v2 v3 : pyval.

Hypothesis body_parsed : get_json request = Ok (PDict d).
Hypothesis fields_present : has_fields d v0 v1 v2 v3.

(** With the four fields present the response is decided by the
    conversions, the positivity test and the classifier. *)
Lemma predict_fields_present :
  predict str_to_float (Some clf) request =
  match convert_all str_to_float v0 v1 v2 v3 with
  | Raise e =>
      if caught_by e [ValueError; TypeError]
      then invalid_numbers_response
      else failed_response e
  | Ok features =>
      if existsb (fun f => float_le f float_zero) features
      then not_positive_response
      else match classify clf features with
           | Ok response => response
           | Raise e => failed_response e
           end
  end.
Proof.
  rewrite <- (read_features_dict str_to_float d v0 v1 v2 v3 fields_present).
  apply predict_present.
  - exact body_parsed.
  - apply truthy_dict. exact (has_fields_not_empty _ _ _ _ _ fields_present).
  - exact (has_fields_none_missing _ _ _ _ _ fields_present).
Qed.

Variables f0 f1 f2 f3 : pyfloat.

Hypothesis converted0 : float str_to_float v0 = Ok f0.
Hypothesis converted1 : float str_to_float v1 = Ok f1.
Hypothesis converted2 : float str_to_float v2 = Ok f2.
Hypothesis converted3 : float str_to_float v3 = Ok f3.

Lemma predict_converted :
  predict str_to_float (Some clf) request =
  if existsb (fun f => float_le f float_zero) [f0; f1; f2; f3]
  then not_positive_response
  else match classify clf [f0; f1; f2; f3] with
       | Ok response => response
       | Raise e => failed_response e
       end.
Proof.
  rewrite predict_fields_present. unfold convert_all.
  rewrite converted0, converted1, converted2, converted3. reflexivity.
Qed.

(** C5. When the four required fields all convert to floats: if some
    converted value is at most zero the answer is 400 with the positivity
    message; if all four are above zero the positivity check lets the
    request through to the classifier, and the answer is not the
    positivity error. *)
Theorem positivity_check :
  ((exists f, f ∈ [f0; f1; f2; f3] /\ float_le f float_zero = true) ->
   predict str_to_float (Some clf) request = not_positive_response /\
   status (predict str_to_float (Some clf) request) = 400 /\
   body_field (predict str_to_float (Some clf) request) "error" =
     Some (PStr "All measurements must be positive numbers")) /\
  (Forall (fun f => float_lt float_zero f = true) [f0; f1; f2; f3] ->
   predict str_to_float (Some clf) request =
     match classify clf [f0; f1; f2; f3] with
     | Ok response => response
     | Raise e => failed_response e
     end /\
   status (predict str_to_float (Some clf) request) <> 400).
Proof.
  split.
  - intros Hle. rewrite predict_converted, (some_le_exists _ Hle). repeat split.
  - intros Hpos. rewrite predict_converted, (all_positive_none_le _ Hpos).
    split; [reflexivity|]. rewrite classify_four.
    destruct (clf_predict clf [f0; f1; f2; f3]) as [idx|e]; [|discriminate].
    destruct (list_getitem IRIS_CLASSES idx); discriminate.
Qed.

(** C2, as amended. When the four required fields convert to floats above
    zero and the loaded classifier returns, for the converted sample, a
    label index between 0 and 2, the answer is 200 with that index as
    prediction_index, the entry of the label table at that index as
    prediction, a confidence that is null or a float, the four converted
    values under their field names as input_data, and the three labels
    Setosa, Versicolor, Virginica as all_classes. *)
Theorem predict_success (idx : Z) :
  Forall (fun f => float_lt float_zero f = true) [f0; f1; f2; f3] ->
  clf_predict clf [f0; f1; f2; f3] = Ok idx ->
  0 <= idx <= 2 ->
  exists label confidence,
    IRIS_CLASSES !! Z.to_nat idx = Some label /\
    (confidence = PNone \/ exists c, confidence = PFloat c) /\
    predict str_to_float (Some clf) request =
      success_response label idx confidence f0 f1 f2 f3 /\
    status (predict str_to_float (Some clf) request) = 200 /\
    body_field (predict str_to_float (Some clf) request) "prediction" =
      Some (PStr label) /\
    body_field (predict str_to_float (Some clf) request) "prediction_index" =
      Some (PInt idx) /\
    body_field (predict str_to_float (Some clf) request) "confidence" =
      Some confidence /\
    body_field (predict str_to_float (Some clf) request) "input_data" =
      Some (jsonify [("sepal_length", PFloat f0); ("sepal_width", PFloat f1);
                     ("petal_length", PFloat f2); ("petal_width", PFloat f3)]) /\
    body_field (predict str_to_float (Some clf) request) "all_classes" =
      Some (PList [PStr "Setosa"; PStr "Versicolor"; PStr "Virginica"]).
Proof.
  intros Hpos Hidx Hrange.
  destruct (PyProps.list_getitem_in_range IRIS_CLASSES idx) as (label & Hget & Hlabel);
    [cbn; lia|].
  exists label, (confidence_of clf [f0; f1; f2; f3]).
  split; [exact Hlabel|]. split.
  { unfold confidence_of. destruct (clf_predict_proba clf _) as [probs|]; [|left; reflexivity].
    destruct (py_max probs) as [m|]; [right; exists m|left]; reflexivity. }
  assert (Hr : predict str_to_float (Some clf) request =
               success_response label idx (confidence_of clf [f0; f1; f2; f3]) f0 f1 f2 f3).
  { rewrite predict_converted, (all_positive_none_le _ Hpos), classify_four, Hidx, Hget.
    reflexivity. }
  rewrite Hr. split; [reflexivity|].
  destruct (success_fields label idx (confidence_of clf [f0; f1; f2; f3]) f0 f1 f2 f3)
    as (Hs & Hp & Hi & Hc & Hd & Ha).
  repeat split; assumption.
Qed.

(** C7. For a request that passes validation and is classified: when the
    classifier yields a non-empty probability row, the confidence is an
    entry of that row which no entry exceeds (the entries being
    probabilities, none a NaN); when the probability call raises, the
    response is still the 200 success response and its confidence is
    null. *)
Theorem confidence_is_max_probability (idx : Z) (label : string) :
  Forall (fun f => float_lt float_zero f = true) [f0; f1; f2; f3] ->
  clf_predict clf [f0; f1; f2; f3] = Ok idx ->
  list_getitem IRIS_CLASSES idx = Ok label ->
  status (predict str_to_float (Some clf) request) = 200 /\
  (forall probabilities,
     clf_predict_proba clf [f0; f1; f2; f3] = Ok probabilities ->
     probabilities <> [] ->
     exists c,
       body_field (predict str_to_float (Some clf) request) "confidence" =
         Some (PFloat c) /\
       c ∈ probabilities /\
       (Forall (fun p => float_is_nan p = false) probabilities ->
        Forall (fun p => float_le p c = true) probabilities)) /\
  (forall e,
     clf_predict_proba clf [f0; f1; f2; f3] = Raise e ->
     predict str_to_float (Some clf) request =
       success_response label idx PNone f0 f1 f2 f3 /\
     body_field (predict str_to_float (Some clf) request) "confidence" = Some PNone).
Proof.
  intros Hpos Hidx Hget.
  assert (Hr : predict str_to_float (Some clf) request =
               success_response label idx (confidence_of clf [f0; f1; f2; f3]) f0 f1 f2 f3).
  { rewrite predict_converted, (all_positive_none_le _ Hpos), classify_four, Hidx, Hget.
    reflexivity. }
  rewrite Hr. split; [reflexivity|]. split.
  - intros probs Hprobs Hne.
    destruct (PyProps.py_max_spec probs Hne) as (m & Hmax & Hin & Hup).
    exists m. split; [|split; assumption].
    unfold confidence_of. rewrite Hprobs, Hmax. reflexivity.
  - intros e He. unfold confidence_of. rewrite He. split; reflexivity.
Qed.

End Converted.

Lemma sample_payload_fields :
  has_fields sample_payload (PFloat f5_1) (PFloat f3_5) (PFloat f1_4) (PFloat f0_2).
Proof. repeat split. Defined.

Lemma zero_payload_fields :
  has_fields zero_payload (PFloat f5_1) (PFloat f3_5) (PFloat f1_4) (PInt 0).
Proof. repeat split. Defined.

Lemma sample_features_positive :
  Forall (fun f => float_lt float_zero f = true) [f5_1; f3_5; f1_4; f0_2].
Proof. repeat constructor. Defined.

Lemma positivity_check_witness :
  predict no_literal (Some sample_classifier) {| get_json := Ok (PDict zero_payload) |} =
    not_positive_response /\
  status (predict no_literal (Some sample_classifier)
            {| get_json := Ok (PDict sample_payload) |}) <> 400.
Proof.
  split.
  - apply (positivity_check no_literal sample_classifier
             {| get_json := Ok (PDict zero_payload) |} zero_payload
             (PFloat f5_1) (PFloat f3_5) (PFloat f1_4) (PInt 0)
             eq_refl zero_payload_fields f5_1 f3_5 f1_4 float_zero
             eq_refl eq_refl eq_refl eq_refl).
    exists float_zero. split; [|reflexivity].
    right; right; right; left.
  - apply (positivity_check no_literal sample_classifier
             {| get_json := Ok (PDict sample_payload) |} sample_payload
             (PFloat f5_1) (PFloat f3_5) (PFloat f1_4) (PFloat f0_2)
             eq_refl sample_payload_fields f5_1 f3_5 f1_4 f0_2
             eq_refl eq_refl eq_refl eq_refl).
    exact sample_features_positive.
Defined.

Lemma predict_success_witness :
  exists label confidence,
    IRIS_CLASSES !! Z.to_nat 0 = Some label /\
    (confidence = PNone \/ exists c, confidence = PFloat c) /\
    predict no_literal (Some sample_classifier)
      {| get_json := Ok (PDict sample_payload) |} =
      success_response label 0 confidence f5_1 f3_5 f1_4 f0_2.
Proof.
  destruct (predict_success no_literal sample_classifier
              {| get_json := Ok (PDict sample_payload) |} sample_payload
              (PFloat f5_1) (PFloat f3_5) (PFloat f1_4) (PFloat f0_2)
              eq_refl sample_payload_fields f5_1 f3_5 f1_4 f0_2
              eq_refl eq_refl eq_refl eq_refl 0
              sample_features_positive eq_refl ltac:(lia))
    as (label & confidence & Hl & Hc & Hr & _).
  exists label, confidence. repeat split; assumption.
Defined.

(** The success response as the specification words it is not given to
    every request with four positive numbers. With a loaded model that
    answers 3 the label lookup fails and the answer is 500; and even with a
    model that always answers a label index, a body whose petal width is
    the positive integer 2^1024 has no float and is answered 500. *)
Lemma predict_success_counterexample :
  ~ success_as_stated (fun _ => True) /\ ~ success_as_stated answers_a_label.
Proof.
  split; intros H.
  - destruct (H no_literal unlabelled_classifier
                {| get_json := Ok (PDict sample_payload) |} sample_payload
                (PFloat f5_1) (PFloat f3_5) (PFloat f1_4) (PFloat f0_2)
                I eq_refl sample_payload_fields eq_refl eq_refl eq_refl eq_refl)
      as (idx & label & confidence & g0 & g1 & g2 & g3 & _ & _ & Hr).
    apply (f_equal status) in Hr. vm_compute in Hr. discriminate Hr.
  - destruct (H no_literal sample_classifier
                {| get_json := Ok (PDict large_integer_payload) |} large_integer_payload
                (PFloat f5_1) (PFloat f3_5) (PFloat f1_4) (PInt (2 ^ 1024)))
      as (idx & label & confidence & g0 & g1 & g2 & g3 & _ & _ & Hr).
    + intros features. exists 0. split; [reflexivity | lia].
    + reflexivity.
    + repeat split.
    + reflexivity.
    + reflexivity.
    + reflexivity.
    + reflexivity.
    + apply (f_equal status) in Hr. vm_compute in Hr. discriminate Hr.
Qed.

Lemma confidence_is_max_probability_witness :
  exists c,
    body_field (predict no_literal (Some sample_proba_classifier)
                  {| get_json := Ok (PDict sample_payload) |}) "confidence" =
      Some (PFloat c) /\
    c ∈ [f0_1; f0_7; f0_2] /\
    Forall (fun p => float_le p c = true) [f0_1; f0_7; f0_2].
Proof.
  destruct (confidence_is_max_probability no_literal sample_proba_classifier
              {| get_json := Ok (PDict sample_payload) |} sample_payload
              (PFloat f5_1) (PFloat f3_5) (PFloat f1_4) (PFloat f0_2)
              eq_refl sample_payload_fields f5_1 f3_5 f1_4 f0_2
              eq_refl eq_refl eq_refl eq_refl 1 "Versicolor"
              sample_features_positive eq_refl eq_refl)
    as (_ & Hmax & _).
  destruct (Hmax [f0_1; f0_7; f0_2] eq_refl ltac:(discriminate)) as (c & Hc & Hin & Hup).
  exists c. repeat split; [exact Hc | exact Hin |].
  apply Hup. repeat constructor.
Defined.

(** *** The handler on sample requests *)

Example sample_floats_valid :
  forallb float_valid [f5_1; f3_5; f1_4; f0_2; f0_1; f0_7; float_one] = true.
Proof. reflexivity. Qed.

(** The sample of the specification, with a classifier that answers 0. *)
Example predict_sample :
  predict no_literal (Some sample_classifier)
    {| get_json := Ok (PDict sample_payload) |} =
  success_response "Setosa" 0 PNone f5_1 f3_5 f1_4 f0_2.
Proof. vm_compute. reflexivity. Qed.

(** A classifier that answers -1 gets the last label: the label table is
    indexed as a Python list. *)
Example predict_negative_index :
  predict no_literal
    (Some {| clf_predict := fun _ => Ok (-1); clf_predict_proba := fun _ => Ok [] |})
    {| get_json := Ok (PDict sample_payload) |} =
  success_response "Virginica" (-1) PNone f5_1 f3_5 f1_4 f0_2.
Proof. vm_compute. reflexivity. Qed.

(** An index outside the table is reported by the outer handler. *)
Example predict_index_out_of_range :
  predict no_literal
    (Some {| clf_predict := fun _ => Ok 3; clf_predict_proba := fun _ => Ok [] |})
    {| get_json := Ok (PDict sample_payload) |} =
  failed_response (Exn IndexError "list index out of range").
Proof. vm_compute. reflexivity. Qed.

(** A JSON array holding the four names passes the membership tests and
    fails in the conversion block, on the subscript. *)
Example predict_array_of_names :
  predict no_literal (Some sample_classifier)
    {| get_json := Ok (PList (map PStr required_fields)) |} =
  invalid_numbers_response.
Proof. vm_compute. reflexivity. Qed.

(** A JSON string is searched for the names as substrings. *)
Example predict_string_body :
  body_field (predict no_literal (Some sample_classifier)
                {| get_json := Ok (PStr "my sepal_length") |}) "error" =
  Some (PStr "Missing required fields: ['sepal_width', 'petal_length', 'petal_width']").
Proof. vm_compute. reflexivity. Qed.

(** Whatever reading the body raises is reported by the outer handler. *)
Example predict_unreadable_body :
  predict no_literal (Some sample_classifier)
    {| get_json := Raise (Exn OtherException "400 Bad Request") |} =
  (jsonify [("error", PStr "Prediction failed: 400 Bad Request")], 500).
Proof. reflexivity. Qed.

(** *** The claims about the server *)

(** C6. With no model loaded, [POST /predict] answers 500 with the
    model-not-loaded message whatever the request is (the body is not even
    read), and [GET /health] answers 200 with model_status "not loaded";
    with a model loaded, [GET /health] answers 200 with model_status
    "loaded". A load that raises leaves the server without a model, a load
    that returns gives it one. *)
Theorem not_loaded_refuses_and_health_reports
    (str_to_float : string -> option pyfloat) (request : Request) (clf : Classifier)
    (e : exn) :
  predict str_to_float None request = not_loaded_response /\
  status not_loaded_response = 500 /\
  body_field not_loaded_response "error" =
    Some (PStr "Model not loaded. Please ensure the model file exists.") /\
  status (health None) = 200 /\
  body_field (health None) "model_status" = Some (PStr "not loaded") /\
  status (health (Some clf)) = 200 /\
  body_field (health (Some clf)) "model_status" = Some (PStr "loaded") /\
  load_model (Raise e) None = (None, false) /\
  load_model (Ok clf) None = (Some clf, true).
Proof. repeat split. Qed.



(** C10. A body that parses to the empty object is answered by the no-body
    check, 400 "No JSON data provided", which carries no field list, as is
    every falsy payload; and a response that carries the list of required
    fields comes from a loaded model and a truthy payload, so never from
    the empty object. *)
Theorem empty_object_is_no_body
    (str_to_float : string -> option pyfloat) (clf : Classifier) :
  predict str_to_float (Some clf) {| get_json := Ok (PDict ∅) |} = no_json_response /\
  status no_json_response = 400 /\
  body_field no_json_response "error" = Some (PStr "No JSON data provided") /\
  body_field no_json_response "required_fields" = None /\
  (forall request data,
     get_json request = Ok data -> truthy data = false ->
     predict str_to_float (Some clf) request = no_json_response) /\
  (forall model request,
     is_Some (body_field (predict str_to_float model request) "required_fields") ->
     exists data missing,
       model <> None /\ get_json request = Ok data /\ truthy data = true /\
       data <> PDict ∅ /\ missing <> [] /\
       predict str_to_float model request = missing_fields_response missing).
Proof.
  split; [reflexivity|]. do 3 (split; [reflexivity|]).
  split; [intros request data Hj Hf; exact (predict_falsy _ _ _ data Hj Hf)|].
  intros model request [v Hv].
  destruct model as [m|]; [|vm_compute in Hv; discriminate Hv].
  destruct (get_json request) as [data|e] eqn:Hj.
  2: { rewrite (predict_raised _ _ _ e Hj) in Hv. vm_compute in Hv. discriminate Hv. }
  destruct (truthy data) eqn:Ht.
  2: { rewrite (predict_falsy _ _ _ data Hj Ht) in Hv. vm_compute in Hv. discriminate Hv. }
  destruct (missing_of data required_fields) as [[|field rest]|e] eqn:Hm.
  - exfalso. rewrite (predict_present _ _ _ data Hj Ht Hm) in Hv.
    destruct (read_features str_to_float data) as [features|e] eqn:Hf.
    + destruct (existsb _ features) eqn:Hpos; [vm_compute in Hv; discriminate Hv|].
      destruct (read_features_four _ _ _ Hf) as (f0 & f1 & f2 & f3 & -> & _).
      rewrite classify_four in Hv.
      destruct (clf_predict m _); [|vm_compute in Hv; discriminate Hv].
      destruct (list_getitem IRIS_CLASSES _); vm_compute in Hv; discriminate Hv.
    + destruct (caught_by e _); vm_compute in Hv; discriminate Hv.
  - exists data, (field :: rest).
    split; [discriminate|]. split; [reflexivity|]. split; [exact Ht|].
    split; [intros ->; discriminate Ht|]. split; [discriminate|].
    apply predict_missing with (data := data); assumption.
  - rewrite (predict_membership_raised _ _ _ data e Hj Ht Hm) in Hv.
    vm_compute in Hv. discriminate Hv.
Qed.

Lemma empty_object_is_no_body_witness :
  exists data missing,
    Some sample_classifier <> None /\
    get_json {| get_json := Ok (PDict {[ "sepal_length" := PFloat f5_1 ]}) |} = Ok data /\
    truthy data = true /\ data <> PDict ∅ /\ missing <> [] /\
    predict no_literal (Some sample_classifier)
      {| get_json := Ok (PDict {[ "sepal_length" := PFloat f5_1 ]}) |} =
    missing_fields_response missing.
Proof.
  apply (proj2 (proj2 (proj2 (proj2 (proj2
           (empty_object_is_no_body no_literal sample_classifier)))))).
  vm_compute. eauto.
Defined.

(** [float] raises [ValueError], [TypeError] or [OverflowError]. *)
Lemma float_raises (str_to_float : string -> option pyfloat) (v : pyval) (e : exn) :
  float str_to_float v = Raise e ->
  exn_cls e = ValueError \/ exn_cls e = TypeError \/ exn_cls e = OverflowError.
Proof.
  destruct v; cbn; try (intros [= <-]; auto; fail).
  - intros H. right. right. exact (PyProps.float_of_int_raises _ _ H).
  - destruct (str_to_float s); intros [= <-]. auto.
Qed.

Lemma convert_all_raises (str_to_float : string -> option pyfloat)
    (v0 v1 v2 v3 : pyval) (e : exn) :
  convert_all str_to_float v0 v1 v2 v3 = Raise e ->
  exn_cls e = ValueError \/ exn_cls e = TypeError \/ exn_cls e = OverflowError.
Proof.
  unfold convert_all, mbind, result_bind.
  destruct (float str_to_float v0) eqn:E0; [|intros [= <-]; eauto using float_raises].
  destruct (float str_to_float v1) eqn:E1; [|intros [= <-]; eauto using float_raises].
  destruct (float str_to_float v2) eqn:E2; [|intros [= <-]; eauto using float_raises].
  destruct (float str_to_float v3) eqn:E3; [|intros [= <-]; eauto using float_raises].
  discriminate.
Qed.

(** When the conversion block stops on [ValueError] or [TypeError] the
    answer is the generic 400, which names no field. *)
Lemma invalid_numbers_rejected (str_to_float : string -> option pyfloat)
    (clf : Classifier) (request : Request) (d : gmap string pyval)
    (v0 v1 v2 v3 : pyval) (e : exn) :
  get_json request = Ok (PDict d) ->
  has_fields d v0 v1 v2 v3 ->
  convert_all str_to_float v0 v1 v2 v3 = Raise e ->
  exn_cls e <> OverflowError ->
  predict str_to_float (Some clf) request = invalid_numbers_response.
Proof.
  intros Hj Hf Hc Hno.
  rewrite (predict_fields_present str_to_float clf request d v0 v1 v2 v3 Hj Hf), Hc.
  unfold caught_by.
  destruct (convert_all_raises _ _ _ _ _ _ Hc) as [H|[H|H]];
    [rewrite H; reflexivity | rewrite H; reflexivity | contradiction].
Qed.

(** C4, at a body with all four fields in which sepal_width is null, so
    not convertible, and sepal_length is the integer 10^400: the integer is
    converted first and raises [OverflowError], which the inner handler
    does not catch; the answer is 500 "Prediction failed", not the generic
    400. *)
Theorem overflow_precedes_invalid_field
    (str_to_float : string -> option pyfloat) (clf : Classifier) :
  has_fields overflow_payload (PInt (10 ^ 400)) PNone (PInt 1) (PInt 1) /\
  (forall f, float str_to_float PNone <> Ok f) /\
  predict str_to_float (Some clf) {| get_json := Ok (PDict overflow_payload) |} =
    failed_response (Exn OverflowError "int too large to convert to float") /\
  status (predict str_to_float (Some clf)
            {| get_json := Ok (PDict overflow_payload) |}) = 500 /\
  body_field (predict str_to_float (Some clf)
                {| get_json := Ok (PDict overflow_payload) |}) "error" =
    Some (PStr "Prediction failed: int too large to convert to float").
Proof.
  assert (Hf : has_fields overflow_payload (PInt (10 ^ 400)) PNone (PInt 1) (PInt 1))
    by (repeat split).
  assert (Hr : predict str_to_float (Some clf)
                 {| get_json := Ok (PDict overflow_payload) |} =
               failed_response (Exn OverflowError "int too large to convert to float")).
  { rewrite (predict_fields_present str_to_float clf
               {| get_json := Ok (PDict overflow_payload) |} overflow_payload
               (PInt (10 ^ 400)) PNone (PInt 1) (PInt 1) eq_refl Hf).
    vm_compute. reflexivity. }
  split; [exact Hf|]. split; [intros f; discriminate|].
  rewrite Hr. repeat split.
Qed.

(** The order of the checks along the paths on which no exception leaves
    the handler's validation: (1) no model loaded, 500, whatever the
    request; (2) the parsed payload is falsy, 400; (3) the payload is a
    non-empty object lacking a required field, 400 with the missing names;
    (4) all four fields are present and the conversions, taken in the order
    of the required fields, stop on a ValueError or TypeError, 400;
    (5) all four convert and some value is at most zero, 400. The five
    failure responses are pairwise different. The remaining conjuncts
    record where an exception does leave it, to the outer handler. *)
Theorem checks_in_order
    (str_to_float : string -> option pyfloat) (clf : Classifier) (request : Request) :
  (forall other, predict str_to_float None other = not_loaded_response) /\
  (forall data,
     get_json request = Ok data -> truthy data = false ->
     predict str_to_float (Some clf) request = no_json_response) /\
  (forall d,
     get_json request = Ok (PDict d) -> d ≠ ∅ ->
     (exists field, field ∈ required_fields /\ d !! field = None) ->
     predict str_to_float (Some clf) request =
       missing_fields_response (List.filter (absent d) required_fields)) /\
  (forall d v0 v1 v2 v3 e,
     get_json request = Ok (PDict d) -> has_fields d v0 v1 v2 v3 ->
     convert_all str_to_float v0 v1 v2 v3 = Raise e ->
     exn_cls e = ValueError \/ exn_cls e = TypeError ->
     predict str_to_float (Some clf) request = invalid_numbers_response) /\
  (forall d v0 v1 v2 v3 features,
     get_json request = Ok (PDict d) -> has_fields d v0 v1 v2 v3 ->
     convert_all str_to_float v0 v1 v2 v3 = Ok features ->
     (exists f, f ∈ features /\ float_le f float_zero = true) ->
     predict str_to_float (Some clf) request = not_positive_response) /\
  (forall missing,
     NoDup [not_loaded_response; no_json_response;
            missing_fields_response missing; invalid_numbers_response;
            not_positive_response]) /\
  (forall e,
     get_json request = Raise e ->
     predict str_to_float (Some clf) request = failed_response e) /\
  (forall data,
     get_json request = Ok data -> truthy data = true ->
     match data with
     | PBool _ | PInt _ | PFloat _ => True
     | _ => False
     end ->
     predict str_to_float (Some clf) request =
       failed_response
         (Exn TypeError ("argument of type '" ++ type_name data ++ "' is not iterable"))).
Proof.
  split; [reflexivity|].
  split; [intros data Hj Ht; exact (predict_falsy _ _ _ data Hj Ht)|].
  split.
  { intros d Hj Hne Hmiss.
    exact (predict_missing_dict str_to_float clf request d Hj Hne Hmiss). }
  split.
  { intros d v0 v1 v2 v3 e Hj Hf Hc Hcls.
    apply (invalid_numbers_rejected str_to_float clf request d v0 v1 v2 v3 e Hj Hf Hc).
    destruct Hcls as [H|H]; rewrite H; discriminate. }
  split.
  { intros d v0 v1 v2 v3 features Hj Hf Hc Hle.
    rewrite (predict_fields_present str_to_float clf request d v0 v1 v2 v3 Hj Hf), Hc.
    rewrite (some_le_exists _ Hle). reflexivity. }
  split.
  { intros missing.
    repeat (apply NoDup_cons; split); try apply NoDup_nil_2;
      intros Hin;
      repeat (apply elem_of_cons in Hin; destruct Hin as [Hin|Hin]);
      try (apply (f_equal (fun r => body_field r "error")) in Hin;
           vm_compute in Hin; discriminate Hin);
      inversion Hin. }
  split; [intros e Hj; exact (predict_raised _ _ _ e Hj)|].
  intros data Hj Ht Hscalar.
  apply predict_membership_raised with (data := data); [exact Hj|exact Ht|].
  apply missing_of_scalar. destruct data; auto.
Qed.

Lemma checks_in_order_witness :
  predict no_literal (Some sample_classifier)
    {| get_json := Ok (PDict null_payload) |} = invalid_numbers_response /\
  predict no_literal (Some sample_classifier)
    {| get_json := Ok (PDict zero_payload) |} = not_positive_response /\
  predict no_literal (Some sample_classifier)
    {| get_json := Ok (PInt 5) |} =
    failed_response (Exn TypeError "argument of type 'int' is not iterable").
Proof.
  split; [|split].
  - destruct (checks_in_order no_literal sample_classifier
                {| get_json := Ok (PDict null_payload) |})
      as (_ & _ & _ & H4 & _).
    apply (H4 null_payload (PFloat f5_1) PNone (PFloat f1_4) (PFloat f0_2)
              (Exn TypeError
                 "float() argument must be a string or a real number, not 'NoneType'")).
    + reflexivity.
    + repeat split.
    + reflexivity.
    + right. reflexivity.
  - destruct (checks_in_order no_literal sample_classifier
                {| get_json := Ok (PDict zero_payload) |})
      as (_ & _ & _ & _ & H5 & _).
    apply (H5 zero_payload (PFloat f5_1) (PFloat f3_5) (PFloat f1_4) (PInt 0)
              [f5_1; f3_5; f1_4; float_zero]).
    + reflexivity.
    + exact zero_payload_fields.
    + reflexivity.
    + exists float_zero. split; [right; right; right; left | reflexivity].
  - destruct (checks_in_order no_literal sample_classifier
                {| get_json := Ok (PInt 5) |})
      as (_ & _ & _ & _ & _ & _ & _ & H8).
    apply (H8 (PInt 5)); [reflexivity | reflexivity | exact I].
Defined.

(** At the body [5] the order as the specification words it does not hold: the body
    parses, is truthy and has none of the required fields, yet the answer
    is not the 400 of the missing-fields check but the 500 of the outer
    handler, raised by the membership test on an integer. *)
Lemma checks_in_order_counterexample : ~ checks_in_order_as_stated.
Proof.
  intros H.
  destruct (H no_literal (Some sample_classifier)
              {| get_json := Ok (PInt 5) |} (PInt 5) eq_refl)
    as (_ & _ & H3 & _).
  destruct H3 as [Hstatus _].
  - discriminate.
  - reflexivity.
  - exists "sepal_length". split; [left | reflexivity].
  - vm_compute in Hstatus. discriminate Hstatus.
Qed.

(** C1, at the body [5] with a model loaded. The body parses, is truthy and
    holds none of the four required fields, so the third check is the first
    to fail; yet the membership test raises TypeError on the integer,
    outside the inner [try], and the answer is the 500 "Prediction failed"
    of the outer handler. The sibling bodies get the 400 of a check: the
    array [[5]] the missing-fields response with the four names, the
    number [0] the no-body response. *)
Theorem scalar_body_escapes_checks
    (str_to_float : string -> option pyfloat) (clf : Classifier) :
  truthy (PInt 5) = true /\
  some_field_missing (PInt 5) /\
  predict str_to_float (Some clf) {| get_json := Ok (PInt 5) |} =
    failed_response (Exn TypeError "argument of type 'int' is not iterable") /\
  status (predict str_to_float (Some clf) {| get_json := Ok (PInt 5) |}) = 500 /\
  body_field (predict str_to_float (Some clf) {| get_json := Ok (PInt 5) |}) "error" =
    Some (PStr "Prediction failed: argument of type 'int' is not iterable") /\
  predict str_to_float (Some clf) {| get_json := Ok (PList [PInt 5]) |} =
    missing_fields_response required_fields /\
  status (predict str_to_float (Some clf) {| get_json := Ok (PList [PInt 5]) |}) = 400 /\
  predict str_to_float (Some clf) {| get_json := Ok (PInt 0) |} = no_json_response.
Proof.
  split; [reflexivity|].
  split; [exists "sepal_length"; split; [left | reflexivity]|].
  repeat split.
Qed.

End AppProps.

(** ** Further properties of the server *)

Module AppMore.
Import Py App AppProps.

(** *** Every response comes from one path of the handler *)

Lemma read_features_shape (str_to_float : string -> option pyfloat)
    (data : pyval) (features : list pyfloat) :
  read_features str_to_float data = Ok features ->
  exists f0 f1 f2 f3, features = [f0; f1; f2; f3].
Proof.
  intros H. destruct (read_features_four _ _ _ H) as (f0 & f1 & f2 & f3 & -> & _).
  exists f0, f1, f2, f3. reflexivity.
Qed.

Lemma predict_path (str_to_float : string -> option pyfloat)
    (model : option Classifier) (request : Request) :
  path str_to_float model request (predict str_to_float model request).
Proof.
  destruct model as [clf|]; [|apply path_not_loaded].
  destruct (get_json request) as [data|e] eqn:Hj.
  2: { rewrite (predict_raised _ _ _ e Hj). apply path_unreadable. exact Hj. }
  destruct (truthy data) eqn:Ht.
  2: { rewrite (predict_falsy _ _ _ data Hj Ht). eapply path_no_json; eassumption. }
  destruct (missing_of data required_fields) as [[|field rest]|e] eqn:Hm.
  - rewrite (predict_present _ _ _ data Hj Ht Hm).
    destruct (read_features str_to_float data) as [features|e] eqn:Hf.
    + destruct (existsb _ features) eqn:Hpos.
      * eapply path_not_positive; eassumption.
      * destruct (read_features_shape _ _ _ Hf) as (f0 & f1 & f2 & f3 & ->).
        rewrite classify_four.
        destruct (clf_predict clf [f0; f1; f2; f3]) as [idx|e] eqn:Hp.
        -- destruct (list_getitem IRIS_CLASSES idx) as [label|e] eqn:Hl.
           ++ eapply path_classified; eassumption.
           ++ eapply path_no_label; eassumption.
        -- eapply path_classifier_failed; eassumption.
    + destruct (caught_by e [ValueError; TypeError]) eqn:Hc.
      * eapply path_invalid; eassumption.
      * eapply path_conversion_failed; eassumption.
  - rewrite (predict_missing _ _ _ data field rest Hj Ht Hm).
    eapply path_missing; eassumption.
  - rewrite (predict_membership_raised _ _ _ data e Hj Ht Hm).
    eapply path_not_container; eassumption.
Qed.

(** Two responses with different error messages are different. *)
Ltac by_message H :=
  apply (f_equal (fun r => body_field r "error")) in H;
  vm_compute in H; discriminate H.

Ltac by_status H :=
  apply (f_equal status) in H; vm_compute in H; discriminate H.

(** X3. Every answer of [POST /predict] is a 200 without an error field and
    with a prediction, or a 400 or 500 whose body carries an error
    message. *)
Theorem status_and_error_field (str_to_float : string -> option pyfloat)
    (model : option Classifier) (request : Request) :
  (status (predict str_to_float model request) = 200 /\
   body_field (predict str_to_float model request) "error" = None /\
   exists label,
     body_field (predict str_to_float model request) "prediction" = Some (PStr label)) \/
  ((status (predict str_to_float model request) = 400 \/
    status (predict str_to_float model request) = 500) /\
   exists message,
     body_field (predict str_to_float model request) "error" = Some (PStr message)).
Proof.
  destruct (predict_path str_to_float model request);
    try (right; split; [first [left; reflexivity | right; reflexivity]
                       | eexists; reflexivity]).
  left. split; [reflexivity|]. split; [reflexivity|]. eexists. reflexivity.
Qed.

Lemma none_le_forall (features : list pyfloat) :
  existsb (fun f => float_le f float_zero) features = false <->
  Forall (fun f => float_le f float_zero = false) features.
Proof.
  induction features as [|f rest IH]; cbn.
  - split; [constructor | reflexivity].
  - rewrite orb_false_iff, IH. split.
    + intros [Hf Hrest]. constructor; assumption.
    + intros H. inversion H; subst. split; assumption.
Qed.

(** X4. A 200 answer is only given after the whole validation: a model is
    loaded, the payload is truthy with no required name missing, the four
    values converted and none is at most zero, and the classifier returned
    an index between -3 and 2; the prediction is then an entry of the label
    table, whatever the classifier is. *)
Theorem success_means_validated (str_to_float : string -> option pyfloat)
    (model : option Classifier) (request : Request) :
  status (predict str_to_float model request) = 200 ->
  exists clf data f0 f1 f2 f3 idx label,
    model = Some clf /\ get_json request = Ok data /\ truthy data = true /\
    missing_of data required_fields = Ok [] /\
    read_features str_to_float data = Ok [f0; f1; f2; f3] /\
    Forall (fun f => float_le f float_zero = false) [f0; f1; f2; f3] /\
    clf_predict clf [f0; f1; f2; f3] = Ok idx /\
    -3 <= idx < 3 /\
    IRIS_CLASSES !! Z.to_nat (idx mod 3) = Some label /\
    label ∈ IRIS_CLASSES /\
    predict str_to_float model request =
      success_response label idx (confidence_of clf [f0; f1; f2; f3]) f0 f1 f2 f3.
Proof.
  intros Hs.
  destruct (predict_path str_to_float model request)
    as [ | | | | | | | | |
         | clf request data f0 f1 f2 f3 idx label Hj Ht Hm Hf Hpos Hp Hl];
    try (vm_compute in Hs; discriminate Hs).
  destruct (PyMore.list_getitem_ok _ _ _ Hl) as (Hrange & Hlook & Hin).
  exists clf, data, f0, f1, f2, f3, idx, label.
  repeat split; try assumption; try (cbn in Hrange; lia).
  apply none_le_forall. exact Hpos.
Qed.

Lemma success_means_validated_witness :
  exists clf data f0 f1 f2 f3 idx label,
    Some sample_classifier = Some clf /\
    get_json {| get_json := Ok (PDict sample_payload) |} = Ok data /\
    truthy data = true /\
    missing_of data required_fields = Ok [] /\
    read_features no_literal data = Ok [f0; f1; f2; f3] /\
    Forall (fun f => float_le f float_zero = false) [f0; f1; f2; f3] /\
    clf_predict clf [f0; f1; f2; f3] = Ok idx /\
    -3 <= idx < 3 /\
    IRIS_CLASSES !! Z.to_nat (idx mod 3) = Some label /\
    label ∈ IRIS_CLASSES /\
    predict no_literal (Some sample_classifier)
      {| get_json := Ok (PDict sample_payload) |} =
      success_response label idx (confidence_of clf [f0; f1; f2; f3]) f0 f1 f2 f3.
Proof.
  apply (success_means_validated no_literal (Some sample_classifier)
           {| get_json := Ok (PDict sample_payload) |}).
  reflexivity.
Defined.

(** The payloads Python takes for false. *)
Lemma truthy_false (data : pyval) :
  truthy data = false <->
  data = PNone \/ data = PBool false \/ data = PInt 0 \/
  (exists s, data = PFloat (S754_zero s)) \/ data = PStr EmptyString \/
  data = PList [] \/ data = PDict ∅.
Proof.
  split.
  - destruct data as [ |b|z|f|s|l|d]; cbn; intros H.
    + auto.
    + subst. auto.
    + apply negb_false_iff, Z.eqb_eq in H. subst. auto.
    + destruct f; try discriminate. right; right; right; left. eauto.
    + apply negb_false_iff, String.eqb_eq in H. subst. auto 10.
    + destruct l; [auto 10 | discriminate].
    + apply negb_false_iff, bool_decide_eq_true in H. subst. auto 10.
  - intros [->|[->|[->|[[s ->]|[->|[->| ->]]]]]]; reflexivity.
Qed.

(** X5. The answer "No JSON data provided" is given exactly when a model is
    loaded and the body parses to [null], [false], [0], a float zero, the
    empty string, the empty array or the empty object. *)
Theorem no_json_exactly_falsy (str_to_float : string -> option pyfloat)
    (model : option Classifier) (request : Request) :
  predict str_to_float model request = no_json_response <->
  exists clf data,
    model = Some clf /\ get_json request = Ok data /\
    (data = PNone \/ data = PBool false \/ data = PInt 0 \/
     (exists s, data = PFloat (S754_zero s)) \/ data = PStr EmptyString \/
     data = PList [] \/ data = PDict ∅).
Proof.
  split.
  - intros H.
    destruct (predict_path str_to_float model request)
      as [ | | clf request data Hj Ht | | | | | | | | ];
      try (by_message H); try (by_status H).
    exists clf, data. split; [reflexivity|]. split; [exact Hj|].
    apply truthy_false. exact Ht.
  - intros (clf & data & -> & Hj & Hfalsy).
    apply predict_falsy with (data := data); [exact Hj|].
    apply truthy_false. exact Hfalsy.
Qed.

Lemma no_json_exactly_falsy_witness :
  predict no_literal (Some sample_classifier) {| get_json := Ok (PList []) |} =
  no_json_response.
Proof.
  apply (proj2 (no_json_exactly_falsy no_literal (Some sample_classifier)
                  {| get_json := Ok (PList []) |})).
  exists sample_classifier, (PList []).
  split; [reflexivity|]. split; [reflexivity|]. auto 10.
Defined.

(** *** Requests that pass the validation *)

Section Validated.

Variable str_to_float : string -> option pyfloat.
Variable clf : Classifier.
Variable request : Request.
Variable d : gmap string pyval.
Variables v0 v1 v2 v3 : pyval.
Variables f0 f1 f2 f3 : pyfloat.

Hypothesis body_parsed : get_json request = Ok (PDict d).
Hypothesis fields_present : has_fields d v0 v1 v2 v3.
Hypothesis converted0 : float str_to_float v0 = Ok f0.
Hypothesis converted1 : float str_to_float v1 = Ok f1.
Hypothesis converted2 : float str_to_float v2 = Ok f2.
Hypothesis converted3 : float str_to_float v3 = Ok f3.

(** X6. Among requests whose four fields convert, the positivity answer
    is given exactly when some converted value is at most zero; a NaN is
    not at most zero, so it is not rejected here. *)
Theorem not_positive_exactly :
  predict str_to_float (Some clf) request = not_positive_response <->
  exists f, f ∈ [f0; f1; f2; f3] /\ float_le f float_zero = true.
Proof.
  rewrite (predict_converted str_to_float clf request d v0 v1 v2 v3
             body_parsed fields_present f0 f1 f2 f3
             converted0 converted1 converted2 converted3).
  destruct (existsb (fun f => float_le f float_zero) [f0; f1; f2; f3]) eqn:E.
  - split; [intros _|reflexivity].
    apply existsb_exists in E. destruct E as (f & Hin & Hle).
    exists f. split; [apply list_elem_of_In; exact Hin | exact Hle].
  - split.
    + rewrite classify_four.
      destruct (clf_predict clf [f0; f1; f2; f3]) as [idx|e]; [|intros H; by_status H].
      destruct (list_getitem IRIS_CLASSES idx); intros H; by_status H.
    + intros Hle. rewrite (some_le_exists _ Hle) in E. discriminate E.
Qed.

Hypothesis passes : Forall (fun f => float_le f float_zero = false) [f0; f1; f2; f3].

Lemma predict_validated :
  predict str_to_float (Some clf) request =
  match classify clf [f0; f1; f2; f3] with
  | Ok response => response
  | Raise e => failed_response e
  end.
Proof.
  rewrite (predict_converted str_to_float clf request d v0 v1 v2 v3
             body_parsed fields_present f0 f1 f2 f3
             converted0 converted1 converted2 converted3).
  rewrite (proj2 (none_le_forall _) passes). reflexivity.
Qed.

(** X7. An exception raised by the classifier on a validated request is
    answered with 500 and the message "Prediction failed: " followed by the
    text of the exception. *)
Theorem classifier_failure_reported (e : exn) :
  clf_predict clf [f0; f1; f2; f3] = Raise e ->
  predict str_to_float (Some clf) request = failed_response e /\
  status (predict str_to_float (Some clf) request) = 500 /\
  body_field (predict str_to_float (Some clf) request) "error" =
    Some (PStr ("Prediction failed: " ++ exn_str e)).
Proof.
  intros He. rewrite predict_validated, classify_four, He. repeat split.
Qed.

(** X8. The label table is indexed as a Python list. For an index from 0
    to 2 the prediction is the entry at that index; for an index from -3 to
    -1 the answer is still a 200, whose prediction is the entry counted from
    the end and whose prediction_index is the negative index; any other
    index is answered with 500 "Prediction failed: list index out of
    range". *)
Theorem label_table_indexing (idx : Z) :
  clf_predict clf [f0; f1; f2; f3] = Ok idx ->
  (-3 <= idx < 3 ->
   exists label,
     IRIS_CLASSES !! Z.to_nat (idx mod 3) = Some label /\
     predict str_to_float (Some clf) request =
       success_response label idx (confidence_of clf [f0; f1; f2; f3]) f0 f1 f2 f3 /\
     body_field (predict str_to_float (Some clf) request) "prediction_index" =
       Some (PInt idx)) /\
  (idx < -3 \/ 3 <= idx ->
   predict str_to_float (Some clf) request =
     failed_response (Exn IndexError "list index out of range") /\
   body_field (predict str_to_float (Some clf) request) "error" =
     Some (PStr "Prediction failed: list index out of range")).
Proof.
  intros Hidx. rewrite predict_validated, classify_four, Hidx. split.
  - intros Hrange.
    destruct (PyMore.list_getitem_inside IRIS_CLASSES idx) as (label & Hget & Hlook);
      [cbn; lia|].
    rewrite Hget. exists label. repeat split. exact Hlook.
  - intros Hout.
    rewrite (PyMore.list_getitem_outside IRIS_CLASSES idx); [|cbn; lia].
    split; reflexivity.
Qed.

(** X9. The confidence step never fails a request: whatever the
    probability call does, a validated and classified request is answered
    with 200, and its confidence is null exactly when the call raised or
    returned an empty row (on which [max] raises). *)
Theorem confidence_never_fails (idx : Z) (label : string) :
  clf_predict clf [f0; f1; f2; f3] = Ok idx ->
  list_getitem IRIS_CLASSES idx = Ok label ->
  status (predict str_to_float (Some clf) request) = 200 /\
  (body_field (predict str_to_float (Some clf) request) "confidence" = Some PNone <->
   (exists e, clf_predict_proba clf [f0; f1; f2; f3] = Raise e) \/
   clf_predict_proba clf [f0; f1; f2; f3] = Ok []).
Proof.
  intros Hidx Hget. rewrite predict_validated, classify_four, Hidx, Hget.
  split; [reflexivity|].
  destruct (success_fields label idx (confidence_of clf [f0; f1; f2; f3]) f0 f1 f2 f3)
    as (_ & _ & _ & Hc & _).
  rewrite Hc. unfold confidence_of.
  destruct (clf_predict_proba clf [f0; f1; f2; f3]) as [[|p row]|e]; cbn.
  - split; [intros _; right; reflexivity | reflexivity].
  - split; [discriminate|]. intros [[e He]|He]; discriminate.
  - split; [intros _; left; eexists; reflexivity | reflexivity].
Qed.

End Validated.

Lemma sample_features_pass :
  Forall (fun f => float_le f float_zero = false) [f5_1; f3_5; f1_4; f0_2].
Proof. repeat constructor. Defined.

Lemma not_positive_exactly_witness :
  predict no_literal (Some sample_classifier)
    {| get_json := Ok (PDict zero_payload) |} = not_positive_response.
Proof.
  apply (proj2 (not_positive_exactly no_literal sample_classifier
                  {| get_json := Ok (PDict zero_payload) |} zero_payload
                  (PFloat f5_1) (PFloat f3_5) (PFloat f1_4) (PInt 0)
                  f5_1 f3_5 f1_4 float_zero
                  eq_refl zero_payload_fields eq_refl eq_refl eq_refl eq_refl)).
  exists float_zero. split; [right; right; right; left | reflexivity].
Defined.

(** A classifier that raises, as scikit-learn does on an infinite
    input, and classifiers that answer -1 and 3. *)
Lemma classifier_failure_reported_witness :
  body_field
    (predict no_literal
       (Some {| clf_predict := fun _ => Raise (Exn ValueError "Input X contains infinity");
                clf_predict_proba := fun _ => Ok [] |})
       {| get_json := Ok (PDict sample_payload) |}) "error" =
  Some (PStr "Prediction failed: Input X contains infinity").
Proof.
  apply (classifier_failure_reported no_literal
           {| clf_predict := fun _ => Raise (Exn ValueError "Input X contains infinity");
              clf_predict_proba := fun _ => Ok [] |}
           {| get_json := Ok (PDict sample_payload) |} sample_payload
           (PFloat f5_1) (PFloat f3_5) (PFloat f1_4) (PFloat f0_2)
           f5_1 f3_5 f1_4 f0_2
           eq_refl sample_payload_fields eq_refl eq_refl eq_refl eq_refl
           sample_features_pass (Exn ValueError "Input X contains infinity") eq_refl).
Defined.

Lemma label_table_indexing_witness :
  (exists label,
     IRIS_CLASSES !! Z.to_nat ((-1) mod 3) = Some label /\
     predict no_literal
       (Some {| clf_predict := fun _ => Ok (-1); clf_predict_proba := fun _ => Ok [] |})
       {| get_json := Ok (PDict sample_payload) |} =
     success_response label (-1) PNone f5_1 f3_5 f1_4 f0_2) /\
  predict no_literal
    (Some {| clf_predict := fun _ => Ok 3; clf_predict_proba := fun _ => Ok [] |})
    {| get_json := Ok (PDict sample_payload) |} =
  failed_response (Exn IndexError "list index out of range").
Proof.
  split.
  - destruct (proj1 (label_table_indexing no_literal
                       {| clf_predict := fun _ => Ok (-1);
                          clf_predict_proba := fun _ => Ok [] |}
                       {| get_json := Ok (PDict sample_payload) |} sample_payload
                       (PFloat f5_1) (PFloat f3_5) (PFloat f1_4) (PFloat f0_2)
                       f5_1 f3_5 f1_4 f0_2
                       eq_refl sample_payload_fields eq_refl eq_refl eq_refl eq_refl
                       sample_features_pass (-1) eq_refl) ltac:(lia))
      as (label & Hl & Hr & _).
    exists label. split; [exact Hl | exact Hr].
  - apply (proj2 (label_table_indexing no_literal
                    {| clf_predict := fun _ => Ok 3;
                       clf_predict_proba := fun _ => Ok [] |}
                    {| get_json := Ok (PDict sample_payload) |} sample_payload
                    (PFloat f5_1) (PFloat f3_5) (PFloat f1_4) (PFloat f0_2)
                    f5_1 f3_5 f1_4 f0_2
                    eq_refl sample_payload_fields eq_refl eq_refl eq_refl eq_refl
                    sample_features_pass 3 eq_refl)).
    right. lia.
Defined.

Lemma confidence_never_fails_witness :
  status (predict no_literal (Some sample_classifier)
            {| get_json := Ok (PDict sample_payload) |}) = 200 /\
  body_field (predict no_literal (Some sample_classifier)
                {| get_json := Ok (PDict sample_payload) |}) "confidence" = Some PNone.
Proof.
  destruct (confidence_never_fails no_literal sample_classifier
              {| get_json := Ok (PDict sample_payload) |} sample_payload
              (PFloat f5_1) (PFloat f3_5) (PFloat f1_4) (PFloat f0_2)
              f5_1 f3_5 f1_4 f0_2
              eq_refl sample_payload_fields eq_refl eq_refl eq_refl eq_refl
              sample_features_pass 0 "Setosa" eq_refl eq_refl) as [Hs Hc].
  split; [exact Hs|]. apply Hc. left. eexists. reflexivity.
Defined.

(** *** Bodies that are no JSON object *)

(** When the membership test answers for every name, the comprehension
    keeps the names it answers false for. *)
Lemma missing_of_answers (data : pyval) (c : string -> bool) (fields : list string) :
  (forall field, contains data field = Ok (c field)) ->
  missing_of data fields = Ok (List.filter (fun field => negb (c field)) fields).
Proof.
  intros Hc. induction fields as [|field rest IH]; [reflexivity|].
  cbn [missing_of List.filter]. unfold mbind, result_bind.
  rewrite Hc. unfold mbind, result_bind in IH. rewrite IH.
  destruct (c field); reflexivity.
Qed.

Lemma container_answers (data : pyval) :
  (exists l, data = PList l) \/ (exists s, data = PStr s) ->
  exists c, forall field, contains data field = Ok (c field).
Proof.
  intros [[l ->]|[s ->]].
  - exists (fun field => existsb (eq_str field) l). reflexivity.
  - exists (fun field => is_substring field s). reflexivity.
Qed.

Lemma container_not_subscriptable (str_to_float : string -> option pyfloat)
    (data : pyval) :
  (exists l, data = PList l) \/ (exists s, data = PStr s) ->
  exists e, read_features str_to_float data = Raise e /\ exn_cls e = TypeError.
Proof.
  intros [[l ->]|[s ->]]; eexists; split; reflexivity.
Qed.

(** X10. A truthy body that is a JSON array or a JSON string never reaches
    the classifier and is always answered with 400. The required names are
    looked for among the elements of the array, or as substrings of the
    string: if one is not found the answer is the missing-fields response
    listing the names not found; if all four are found the subscript fails
    and the answer is "All input values must be valid numbers". *)
Theorem array_or_string_body (str_to_float : string -> option pyfloat)
    (clf : Classifier) (request : Request) (data : pyval) :
  get_json request = Ok data ->
  truthy data = true ->
  (exists l, data = PList l) \/ (exists s, data = PStr s) ->
  status (predict str_to_float (Some clf) request) = 400 /\
  ((forall field, field ∈ required_fields -> contains data field = Ok true) ->
   predict str_to_float (Some clf) request = invalid_numbers_response) /\
  ((exists field, field ∈ required_fields /\ contains data field = Ok false) ->
   exists missing,
     missing <> [] /\
     predict str_to_float (Some clf) request = missing_fields_response missing /\
     forall field, field ∈ missing <->
                   field ∈ required_fields /\ contains data field = Ok false).
Proof.
  intros Hj Ht Hshape.
  destruct (container_answers data Hshape) as [c Hc].
  assert (Hm := missing_of_answers data c required_fields Hc).
  assert (Hmem : forall field,
             field ∈ List.filter (fun field => negb (c field)) required_fields <->
             field ∈ required_fields /\ contains data field = Ok false).
  { intros field. rewrite list_elem_of_In, filter_In, <- list_elem_of_In, Hc.
    rewrite negb_true_iff. split; intros [H1 H2]; split; congruence. }
  destruct (List.filter (fun field => negb (c field)) required_fields)
    as [|m rest] eqn:E.
  - assert (Hr : predict str_to_float (Some clf) request = invalid_numbers_response).
    { rewrite (predict_present _ _ _ data Hj Ht Hm).
      destruct (container_not_subscriptable str_to_float data Hshape) as (e & -> & He).
      unfold caught_by. rewrite He. reflexivity. }
    rewrite Hr. split; [reflexivity|]. split; [reflexivity|].
    intros (field & Hin & Hfalse). exfalso.
    assert (Hf : field ∈ @nil string) by (apply Hmem; auto). inversion Hf.
  - assert (Hr : predict str_to_float (Some clf) request =
                 missing_fields_response (m :: rest)).
    { apply predict_missing with (data := data); assumption. }
    rewrite Hr. split; [reflexivity|]. split.
    + intros Hall. exfalso.
      assert (Hin : m ∈ m :: rest) by left.
      apply Hmem in Hin. destruct Hin as [Hin Hfalse].
      rewrite (Hall m Hin) in Hfalse. discriminate Hfalse.
    + intros _. exists (m :: rest). split; [discriminate|]. split; [reflexivity|].
      exact Hmem.
Qed.

Lemma array_or_string_body_witness :
  status (predict no_literal (Some sample_classifier)
            {| get_json := Ok (PList (map PStr required_fields)) |}) = 400 /\
  predict no_literal (Some sample_classifier)
    {| get_json := Ok (PList (map PStr required_fields)) |} = invalid_numbers_response.
Proof.
  destruct (array_or_string_body no_literal sample_classifier
              {| get_json := Ok (PList (map PStr required_fields)) |}
              (PList (map PStr required_fields)) eq_refl eq_refl
              (or_introl (ex_intro _ (map PStr required_fields) eq_refl)))
    as (Hs & Hall & _).
  split; [exact Hs|]. apply Hall.
  intros field Hin.
  repeat (apply elem_of_cons in Hin; destruct Hin as [->|Hin]); try reflexivity.
  inversion Hin.
Defined.

(** *** What an object payload is read for *)

Lemma absent_agree (d d' : gmap string pyval) (fields : list string) :
  (forall field, field ∈ fields -> d !! field = d' !! field) ->
  List.filter (absent d) fields = List.filter (absent d') fields.
Proof.
  intros H. apply filter_ext_in. intros field Hin.
  unfold absent. rewrite (H field); [reflexivity|].
  apply list_elem_of_In. exact Hin.
Qed.

Lemma read_features_agree (str_to_float : string -> option pyfloat)
    (d d' : gmap string pyval) :
  (forall field, field ∈ required_fields -> d !! field = d' !! field) ->
  read_features str_to_float (PDict d) = read_features str_to_float (PDict d').
Proof.
  intros H. unfold read_features, field_float, getitem.
  rewrite (H "sepal_length"), (H "sepal_width"), (H "petal_length"),
    (H "petal_width"); try reflexivity; unfold required_fields; repeat constructor.
Qed.

(** X11. Keys other than the four required ones are ignored: two non-empty
    objects that agree on the four required names get the same answer. *)
Theorem only_required_fields_matter (str_to_float : string -> option pyfloat)
    (model : option Classifier) (request request' : Request)
    (d d' : gmap string pyval) :
  get_json request = Ok (PDict d) ->
  get_json request' = Ok (PDict d') ->
  d ≠ ∅ -> d' ≠ ∅ ->
  (forall field, field ∈ required_fields -> d !! field = d' !! field) ->
  predict str_to_float model request = predict str_to_float model request'.
Proof.
  intros Hj Hj' Hne Hne' Hagree.
  destruct model as [clf|]; [|reflexivity].
  unfold predict, predict_try. rewrite Hj, Hj'. cbn [mbind result_bind].
  rewrite (proj2 (truthy_dict d) Hne), (proj2 (truthy_dict d') Hne').
  rewrite !missing_of_dict, (absent_agree d d' required_fields Hagree).
  rewrite (read_features_agree str_to_float d d' Hagree). reflexivity.
Qed.

Lemma only_required_fields_matter_witness :
  predict no_literal (Some sample_classifier)
    {| get_json := Ok (PDict (<["species" := PStr "unknown"]> sample_payload)) |} =
  predict no_literal (Some sample_classifier)
    {| get_json := Ok (PDict sample_payload) |}.
Proof.
  apply (only_required_fields_matter no_literal (Some sample_classifier)
           {| get_json := Ok (PDict (<["species" := PStr "unknown"]> sample_payload)) |}
           {| get_json := Ok (PDict sample_payload) |}
           (<["species" := PStr "unknown"]> sample_payload) sample_payload
           eq_refl eq_refl).
  - discriminate.
  - discriminate.
  - intros field Hin.
    repeat (apply elem_of_cons in Hin; destruct Hin as [->|Hin]); try reflexivity.
    inversion Hin.
Defined.

(** X12. The values of the four fields enter only through [float]: two
    objects whose fields convert alike, such as a number and a string or a
    boolean that converts to it, get the same answer. *)
Theorem values_enter_through_float (str_to_float : string -> option pyfloat)
    (clf : Classifier) (request request' : Request) (d d' : gmap string pyval)
    (v0 v1 v2 v3 v0' v1' v2' v3' : pyval) :
  get_json request = Ok (PDict d) ->
  get_json request' = Ok (PDict d') ->
  has_fields d v0 v1 v2 v3 ->
  has_fields d' v0' v1' v2' v3' ->
  float str_to_float v0 = float str_to_float v0' ->
  float str_to_float v1 = float str_to_float v1' ->
  float str_to_float v2 = float str_to_float v2' ->
  float str_to_float v3 = float str_to_float v3' ->
  predict str_to_float (Some clf) request = predict str_to_float (Some clf) request'.
Proof.
  intros Hj Hj' Hf Hf' H0 H1 H2 H3.
  rewrite (predict_fields_present str_to_float clf request d v0 v1 v2 v3 Hj Hf).
  rewrite (predict_fields_present str_to_float clf request' d' v0' v1' v2' v3' Hj' Hf').
  unfold convert_all. rewrite H0, H1, H2, H3. reflexivity.
Qed.

(** The body with [true] for the petal width and the body with 1 for it. *)
Lemma values_enter_through_float_witness :
  predict no_literal (Some sample_classifier)
    {| get_json := Ok (PDict (<["petal_width" := PBool true]> sample_payload)) |} =
  predict no_literal (Some sample_classifier)
    {| get_json := Ok (PDict (<["petal_width" := PInt 1]> sample_payload)) |}.
Proof.
  apply (values_enter_through_float no_literal sample_classifier
           {| get_json := Ok (PDict (<["petal_width" := PBool true]> sample_payload)) |}
           {| get_json := Ok (PDict (<["petal_width" := PInt 1]> sample_payload)) |}
           (<["petal_width" := PBool true]> sample_payload)
           (<["petal_width" := PInt 1]> sample_payload)
           (PFloat f5_1) (PFloat f3_5) (PFloat f1_4) (PBool true)
           (PFloat f5_1) (PFloat f3_5) (PFloat f1_4) (PInt 1)
           eq_refl eq_refl);
    try reflexivity; repeat split.
Defined.

(** X13. The missing-fields message tells the missing fields apart: two
    objects answered with the same message lack the same required
    fields. *)
Theorem message_determines_missing (d d' : gmap string pyval) :
  body_field (missing_fields_response (List.filter (absent d) required_fields)) "error" =
  body_field (missing_fields_response (List.filter (absent d') required_fields)) "error" ->
  forall field, field ∈ required_fields -> (d !! field = None <-> d' !! field = None).
Proof.
  intros Hmsg field Hin. rewrite <- !absent_true.
  unfold required_fields in Hmsg. cbn [List.filter] in Hmsg.
  repeat (apply elem_of_cons in Hin; destruct Hin as [->|Hin]); [ | | | |inversion Hin];
    destruct (absent d "sepal_length"), (absent d "sepal_width"),
             (absent d "petal_length"), (absent d "petal_width"),
             (absent d' "sepal_length"), (absent d' "sepal_width"),
             (absent d' "petal_length"), (absent d' "petal_width");
    try (split; reflexivity); try (split; congruence);
    vm_compute in Hmsg; discriminate Hmsg.
Qed.

Lemma message_determines_missing_witness :
  ({[ "sepal_length" := PInt 1 ]} : gmap string pyval) !! "sepal_width" = None <->
  ({[ "sepal_length" := PInt 2 ]} : gmap string pyval) !! "sepal_width" = None.
Proof.
  apply (message_determines_missing {[ "sepal_length" := PInt 1 ]}
           {[ "sepal_length" := PInt 2 ]}).
  - reflexivity.
  - right. left.
Defined.

(** *** The start of the server *)




(** *** Validation does not consult the classifier *)

(** X15. A 400 answer is decided before the classifier is called: with any
    other loaded classifier the same request gets the same answer. *)
Theorem validation_ignores_classifier (str_to_float : string -> option pyfloat)
    (clf clf' : Classifier) (request : Request) :
  status (predict str_to_float (Some clf) request) = 400 ->
  predict str_to_float (Some clf') request = predict str_to_float (Some clf) request.
Proof.
  intros Hs.
  destruct (get_json request) as [data|e] eqn:Hj.
  2: { rewrite (predict_raised _ _ _ e Hj) in Hs. discriminate Hs. }
  destruct (truthy data) eqn:Ht.
  2: { rewrite !(predict_falsy _ _ _ data Hj Ht). reflexivity. }
  destruct (missing_of data required_fields) as [[|field rest]|e] eqn:Hm.
  - rewrite (predict_present _ clf _ data Hj Ht Hm) in Hs |- *.
    rewrite (predict_present _ clf' _ data Hj Ht Hm).
    destruct (read_features str_to_float data) as [features|e] eqn:Hf.
    + destruct (existsb _ features) eqn:Hpos; [reflexivity|]. exfalso.
      destruct (read_features_shape _ _ _ Hf) as (f0 & f1 & f2 & f3 & ->).
      rewrite classify_four in Hs.
      destruct (clf_predict clf [f0; f1; f2; f3]) as [idx|e]; [|discriminate Hs].
      destruct (list_getitem IRIS_CLASSES idx); discriminate Hs.
    + reflexivity.
  - rewrite !(predict_missing _ _ _ data field rest Hj Ht Hm). reflexivity.
  - rewrite (predict_membership_raised _ _ _ data e Hj Ht Hm) in Hs. discriminate Hs.
Qed.

Lemma validation_ignores_classifier_witness :
  predict no_literal (Some sample_proba_classifier)
    {| get_json := Ok (PDict zero_payload) |} =
  predict no_literal (Some sample_classifier)
    {| get_json := Ok (PDict zero_payload) |}.
Proof.
  apply (validation_ignores_classifier no_literal sample_classifier
           sample_proba_classifier {| get_json := Ok (PDict zero_payload) |}).
  reflexivity.
Defined.

End AppMore.

(** ** Properties of the trainer *)

Module TrainProps.
Import Py Train.

Lemma log_log (l1 l2 : list string) (w : World) :
  log l2 (log l1 w) = log (l1 ++ l2) w.
Proof. unfold log. cbn. rewrite app_assoc. reflexivity. Qed.

Lemma print_log (line : string) (w : World) : print line w = (Ok tt, log [line] w).
Proof. reflexivity. Qed.

Section Run.

Context {Arr Mdl : Type}.
Variable lib : Library Arr Mdl.
Variable iris : Iris Arr.
Variables X_train X_test y_train y_test : Arr.

Hypothesis loaded : load_iris lib = Ok iris.
Hypothesis split :
  train_test_split lib (data iris) (target iris) = Ok (X_train, X_test, y_train, y_test).

(** A fit that raises ends the run before any file is touched. *)
Lemma run_fit_raised (e : exn) (w : World) :
  fit lib X_train y_train = Raise e ->
  train_iris_model lib w = (Raise e, log (lines_before_fit lib iris X_train X_test) w).
Proof.
  intros Hfit. unfold train_iris_model, mbind, M_bind, call.
  rewrite !print_log, loaded. cbn beta iota. rewrite !print_log, split.
  cbn beta iota. rewrite !print_log, Hfit, !log_log. reflexivity.
Qed.

Variable model : Mdl.
Variable y_pred : Arr.
Variable accuracy : pyfloat.
Variable report : string.

Hypothesis fitted : fit lib X_train y_train = Ok model.
Hypothesis predicted : predict_array lib model X_test = Ok y_pred.
Hypothesis scored : accuracy_score lib y_test y_pred = Ok accuracy.
Hypothesis reported :
  classification_report lib y_test y_pred (target_names iris) = Ok report.

Lemma run_to_dump (w : World) :
  train_iris_model lib w =
  from_dump lib model iris
    (log (lines_before_dump lib iris X_train X_test accuracy report) w).
Proof.
  unfold train_iris_model, from_dump, mbind, M_bind, call.
  rewrite !print_log, loaded. cbn beta iota. rewrite !print_log, split.
  cbn beta iota. rewrite !print_log, fitted, predicted, scored. cbn beta iota.
  rewrite !print_log, reported. cbn beta iota. rewrite !print_log, !log_log.
  reflexivity.
Qed.

End Run.

Section Dump.

Context {Arr Mdl : Type}.
Variable lib : Library Arr Mdl.
Variable model : Mdl.
Variable iris : Iris Arr.

Lemma from_dump_open_failed (e : exn) (w : World) :
  dump_fault lib model = Some (OpenFailed e) ->
  from_dump lib model iris w = (Raise e, w).
Proof.
  intros H. unfold from_dump, mbind, M_bind, joblib_dump. rewrite H. reflexivity.
Qed.

Lemma from_dump_write_failed (written : nat) (e : exn) (w : World) :
  dump_fault lib model = Some (WriteFailed written e) ->
  from_dump lib model iris w =
  (Raise e, write_file model_filename (take written (pickle lib model)) w).
Proof.
  intros H. unfold from_dump, mbind, M_bind, joblib_dump. rewrite H. reflexivity.
Qed.

(** After a dump without fault the file holds the whole pickle, and the
    rest of the run is decided by what [joblib.load] makes of it. *)
Lemma from_dump_written (w : World) :
  dump_fault lib model = None ->
  from_dump lib model iris w =
  let w1 := log lines_before_load (write_file model_filename (pickle lib model) w) in
  match unpickle lib (pickle lib model) with
  | Raise e => (Raise e, w1)
  | Ok loaded_model =>
      match predict_rows lib loaded_model sample_data with
      | Raise e => (Raise e, w1)
      | Ok prediction =>
          match sample_class (target_names iris) prediction with
          | Raise e => (Raise e, w1)
          | Ok predicted_class =>
              (Ok tt, log ["Sample prediction: " ++ predicted_class; success_line] w1)
          end
      end
  end.
Proof.
  intros H. unfold from_dump, mbind, M_bind, joblib_dump, joblib_load, call.
  rewrite H, !print_log, !log_log. cbn [files log write_file].
  rewrite lookup_insert_eq.
  destruct (unpickle lib (pickle lib model)) as [loaded_model|e]; [|reflexivity].
  destruct (predict_rows lib loaded_model sample_data) as [prediction|e]; [|reflexivity].
  destruct (sample_class (target_names iris) prediction) as [cls|e]; [|reflexivity].
  rewrite !print_log, !log_log. reflexivity.
Qed.

End Dump.

(** *** The claims about the trainer *)

(** C8, as amended. An exception raised by the fit or by the dump leaves
    [train_iris_model] as that exception, after the lines printed so far
    and without the success line. When the fit raises, or the dump fails
    before opening the file, the files are as they were before the run.
    When the dump fails after writing [written] bytes, the artifact file
    holds those first bytes of the pickle. *)
Theorem failed_run_effects {Arr Mdl : Type} (lib : Library Arr Mdl)
    (iris : Iris Arr) (X_train X_test y_train y_test : Arr) (w : World) :
  load_iris lib = Ok iris ->
  train_test_split lib (data iris) (target iris) = Ok (X_train, X_test, y_train, y_test) ->
  (forall e,
     fit lib X_train y_train = Raise e ->
     exists w',
       train_iris_model lib w = (Raise e, w') /\
       files w' = files w /\
       stdout w' = (stdout w ++ lines_before_fit lib iris X_train X_test)%list) /\
  (forall model y_pred accuracy report,
     fit lib X_train y_train = Ok model ->
     predict_array lib model X_test = Ok y_pred ->
     accuracy_score lib y_test y_pred = Ok accuracy ->
     classification_report lib y_test y_pred (target_names iris) = Ok report ->
     (forall e,
        dump_fault lib model = Some (OpenFailed e) ->
        exists w',
          train_iris_model lib w = (Raise e, w') /\
          files w' = files w /\
          stdout w' =
            (stdout w ++ lines_before_dump lib iris X_train X_test accuracy report)%list) /\
     (forall written e,
        dump_fault lib model = Some (WriteFailed written e) ->
        exists w',
          train_iris_model lib w = (Raise e, w') /\
          files w' = <[model_filename := take written (pickle lib model)]> (files w) /\
          stdout w' =
            (stdout w ++ lines_before_dump lib iris X_train X_test accuracy report)%list)).
Proof.
  intros Hload Hsplit. split.
  - intros e Hfit. eexists. split; [|split].
    + exact (run_fit_raised lib iris X_train X_test y_train y_test Hload Hsplit e w Hfit).
    + reflexivity.
    + reflexivity.
  - intros model y_pred accuracy report Hfit Hpred Hacc Hrep.
    assert (Hrun := run_to_dump lib iris X_train X_test y_train y_test Hload Hsplit
                      model y_pred accuracy report Hfit Hpred Hacc Hrep w).
    split.
    + intros e Hfault. eexists. split; [|split].
      * rewrite Hrun. apply from_dump_open_failed. exact Hfault.
      * reflexivity.
      * reflexivity.
    + intros written e Hfault. eexists. split; [|split].
      * rewrite Hrun. apply from_dump_write_failed. exact Hfault.
      * reflexivity.
      * reflexivity.
Qed.

Lemma failed_run_effects_witness :
  exists w',
    train_iris_model (sample_library true) empty_world =
      (Raise (Exn OtherException "No space left on device"), w') /\
    files w' = <[model_filename := [Byte.x80; Byte.x04]]> ∅.
Proof.
  destruct (failed_run_effects (sample_library true)
              {| data := tt; target := tt;
                 feature_names := ["sepal length (cm)"; "sepal width (cm)";
                                   "petal length (cm)"; "petal width (cm)"];
                 target_names := ["setosa"; "versicolor"; "virginica"] |}
              tt tt tt tt empty_world eq_refl eq_refl) as [_ Hdump].
  destruct (Hdump tt tt float_one "report" eq_refl eq_refl eq_refl eq_refl) as [_ Hwrite].
  destruct (Hwrite 2%nat (Exn OtherException "No space left on device") eq_refl)
    as (w' & Hrun & Hfiles & _).
  exists w'. split; [exact Hrun | exact Hfiles].
Defined.

(** The failure mode as the specification words it does not hold: with a
    dump that fails after two of the four bytes of the pickle, the run
    leaves an artifact file of two bytes. *)
Lemma no_partial_artifact_counterexample : ~ no_partial_artifact_as_stated.
Proof.
  intros H.
  destruct (H unit unit (sample_library true) empty_world
              (snd (train_iris_model (sample_library true) empty_world))
              (Exn OtherException "No space left on device")
              {| data := tt; target := tt;
                 feature_names := ["sepal length (cm)"; "sepal width (cm)";
                                   "petal length (cm)"; "petal width (cm)"];
                 target_names := ["setosa"; "versicolor"; "virginica"] |}
              tt tt tt tt) as [Habsent|(model & _ & Hwhole)].
  - reflexivity.
  - reflexivity.
  - reflexivity.
  - right. exists tt, (WriteFailed 2 (Exn OtherException "No space left on device")).
    split; reflexivity.
  - reflexivity.
  - vm_compute in Habsent. discriminate Habsent.
  - vm_compute in Hwhole. discriminate Hwhole.
Qed.

End TrainProps.

(** ** Further properties of the trainer *)

Module TrainMore.
Import Py Train TrainProps.

(** *** The files and the output across a run *)

Lemma after_refl (w : World) : after w w.
Proof.
  split; [reflexivity|]. exists []. rewrite app_nil_r. reflexivity.
Qed.

Lemma after_trans (w1 w2 w3 : World) : after w1 w2 -> after w2 w3 -> after w1 w3.
Proof.
  intros [Hf1 [l1 Ho1]] [Hf2 [l2 Ho2]]. split.
  - intros name Hne. rewrite (Hf2 name Hne). apply Hf1. exact Hne.
  - exists (l1 ++ l2)%list. rewrite Ho2, Ho1, app_assoc. reflexivity.
Qed.

Lemma keeps_ret {A} (a : A) : keeps_to_artifact (mret a).
Proof. intros w. apply after_refl. Qed.

Lemma keeps_call {A} (r : result A) : keeps_to_artifact (call r).
Proof. intros w. apply after_refl. Qed.

Lemma keeps_print (line : string) : keeps_to_artifact (print line).
Proof.
  intros w. split; [reflexivity|]. exists [line]. reflexivity.
Qed.

Lemma keeps_bind {A B} (c : M A) (k : A -> M B) :
  keeps_to_artifact c -> (forall a, keeps_to_artifact (k a)) ->
  keeps_to_artifact (c ≫= k).
Proof.
  intros Hc Hk w. unfold mbind, M_bind. specialize (Hc w).
  destruct (c w) as [[a|e] w1]; cbn in Hc.
  - apply after_trans with (w2 := w1); [exact Hc | apply Hk].
  - exact Hc.
Qed.

Section Statements.

Context {Arr Mdl : Type}.
Variable lib : Library Arr Mdl.

Lemma keeps_dump (model : Mdl) : keeps_to_artifact (joblib_dump lib model model_filename).
Proof.
  intros w. unfold joblib_dump.
  destruct (dump_fault lib model) as [[e|written e]|]; cbn.
  - apply after_refl.
  - split; [|exists []; rewrite app_nil_r; reflexivity].
    intros name Hne. cbn. apply lookup_insert_ne. congruence.
  - split; [|exists []; rewrite app_nil_r; reflexivity].
    intros name Hne. cbn. apply lookup_insert_ne. congruence.
Qed.

Lemma keeps_load : keeps_to_artifact (joblib_load lib model_filename).
Proof.
  intros w. unfold joblib_load.
  destruct (files w !! model_filename); apply after_refl.
Qed.

(** X16. Whatever the libraries do and however the run ends, the trainer
    changes no file other than [iris_model.pkl], and it only adds lines to
    the output. *)
Theorem train_keeps_to_artifact (w : World) :
  (forall name, name <> model_filename ->
     files (snd (train_iris_model lib w)) !! name = files w !! name) /\
  exists lines, stdout (snd (train_iris_model lib w)) = (stdout w ++ lines)%list.
Proof.
  revert w. change (keeps_to_artifact (train_iris_model lib)).
  unfold train_iris_model.
  repeat first
    [ apply keeps_print
    | apply keeps_call
    | apply keeps_dump
    | apply keeps_load
    | apply keeps_bind; [|intros ?]
    | match goal with
      | p : (_ * _)%type |- _ => destruct p
      end ].
Qed.

End Statements.

(** *** How a run can end *)

Section Ends.

Context {Arr Mdl : Type}.
Variable lib : Library Arr Mdl.

(** A run that returns has gone through every library call before the
    dump. *)
Lemma run_returned (w w' : World) :
  train_iris_model lib w = (Ok tt, w') ->
  exists iris X_train X_test y_train y_test model y_pred accuracy report,
    load_iris lib = Ok iris /\
    train_test_split lib (data iris) (target iris) =
      Ok (X_train, X_test, y_train, y_test) /\
    fit lib X_train y_train = Ok model /\
    predict_array lib model X_test = Ok y_pred /\
    accuracy_score lib y_test y_pred = Ok accuracy /\
    classification_report lib y_test y_pred (target_names iris) = Ok report.
Proof.
  unfold train_iris_model, mbind, M_bind, call. rewrite !print_log.
  destruct (load_iris lib) as [iris|e] eqn:H1; [|discriminate].
  cbn beta iota. rewrite !print_log.
  destruct (train_test_split lib (data iris) (target iris))
    as [[[[X_train X_test] y_train] y_test]|e] eqn:H2; [|discriminate].
  cbn beta iota. rewrite !print_log.
  destruct (fit lib X_train y_train) as [model|e] eqn:H3; [|discriminate].
  destruct (predict_array lib model X_test) as [y_pred|e] eqn:H4; [|discriminate].
  destruct (accuracy_score lib y_test y_pred) as [accuracy|e] eqn:H5; [|discriminate].
  cbn beta iota. rewrite !print_log.
  destruct (classification_report lib y_test y_pred (target_names iris))
    as [report|e] eqn:H6; [|discriminate].
  intros _.
  exists iris, X_train, X_test, y_train, y_test, model, y_pred, accuracy, report.
  repeat split; assumption.
Qed.

(** X17. A run that returns, and so has printed the success line last, has
    fitted a model, written its whole pickle to the artifact file, loaded
    that pickle back and classified the sample with what it loaded. *)
Theorem success_means_artifact (w w' : World) :
  train_iris_model lib w = (Ok tt, w') ->
  exists iris X_train X_test y_train y_test model reloaded prediction predicted_class,
    load_iris lib = Ok iris /\
    train_test_split lib (data iris) (target iris) =
      Ok (X_train, X_test, y_train, y_test) /\
    fit lib X_train y_train = Ok model /\
    dump_fault lib model = None /\
    files w' !! model_filename = Some (pickle lib model) /\
    unpickle lib (pickle lib model) = Ok reloaded /\
    predict_rows lib reloaded sample_data = Ok prediction /\
    sample_class (target_names iris) prediction = Ok predicted_class /\
    last (stdout w') = Some success_line.
Proof.
  intros Hrun.
  destruct (run_returned w w' Hrun)
    as (iris & X_train & X_test & y_train & y_test & model & y_pred & accuracy &
        report & H1 & H2 & H3 & H4 & H5 & H6).
  rewrite (run_to_dump lib iris X_train X_test y_train y_test H1 H2
             model y_pred accuracy report H3 H4 H5 H6 w) in Hrun.
  destruct (dump_fault lib model) as [[e|written e]|] eqn:Hd.
  - rewrite (from_dump_open_failed lib model iris e _ Hd) in Hrun. discriminate Hrun.
  - rewrite (from_dump_write_failed lib model iris written e _ Hd) in Hrun.
    discriminate Hrun.
  - rewrite (from_dump_written lib model iris _ Hd) in Hrun. cbn zeta in Hrun.
    destruct (unpickle lib (pickle lib model)) as [reloaded|e] eqn:Hu;
      [|discriminate Hrun].
    destruct (predict_rows lib reloaded sample_data) as [prediction|e] eqn:Hp;
      [|discriminate Hrun].
    destruct (sample_class (target_names iris) prediction) as [cls|e] eqn:Hc;
      [|discriminate Hrun].
    injection Hrun as <-.
    exists iris, X_train, X_test, y_train, y_test, model, reloaded, prediction, cls.
    repeat split; try assumption.
    + cbn. apply lookup_insert_eq.
    + cbn [stdout log].
      change [("Sample prediction: " ++ cls)%string; success_line]
        with ([("Sample prediction: " ++ cls)%string] ++ [success_line])%list.
      rewrite app_assoc. apply last_snoc.
Qed.

Variable iris : Iris Arr.
Variables X_train X_test y_train y_test : Arr.
Variable model : Mdl.
Variable y_pred : Arr.
Variable accuracy : pyfloat.
Variable report : string.

Hypothesis loaded : load_iris lib = Ok iris.
Hypothesis split :
  train_test_split lib (data iris) (target iris) = Ok (X_train, X_test, y_train, y_test).
Hypothesis fitted : fit lib X_train y_train = Ok model.
Hypothesis predicted : predict_array lib model X_test = Ok y_pred.
Hypothesis scored : accuracy_score lib y_test y_pred = Ok accuracy.
Hypothesis reported :
  classification_report lib y_test y_pred (target_names iris) = Ok report.
Hypothesis dumped : dump_fault lib model = None.


(** X19. Nothing is undone after the dump: a run that fails in the
    self-check (the load, the classification of the sample or the lookup of
    its class raises) ends with that exception and leaves the complete
    pickle in the artifact file. *)
Theorem failed_self_check_leaves_artifact (w w' : World) (e : exn) :
  train_iris_model lib w = (Raise e, w') ->
  files w' !! model_filename = Some (pickle lib model) /\
  (unpickle lib (pickle lib model) = Raise e \/
   exists reloaded,
     unpickle lib (pickle lib model) = Ok reloaded /\
     (predict_rows lib reloaded sample_data = Raise e \/
      exists prediction,
        predict_rows lib reloaded sample_data = Ok prediction /\
        sample_class (target_names iris) prediction = Raise e)).
Proof.
  rewrite (run_to_dump lib iris X_train X_test y_train y_test loaded split
             model y_pred accuracy report fitted predicted scored reported w).
  rewrite (from_dump_written lib model iris _ dumped). cbn zeta.
  destruct (unpickle lib (pickle lib model)) as [reloaded|e1] eqn:Hu.
  - destruct (predict_rows lib reloaded sample_data) as [prediction|e2] eqn:Hp.
    + destruct (sample_class (target_names iris) prediction) as [cls|e3] eqn:Hc.
      * discriminate.
      * intros [= <- <-]. split; [cbn; apply lookup_insert_eq|].
        right. exists reloaded. split; [first [assumption|reflexivity]|].
        right. exists prediction. split; first [assumption|reflexivity].
    + intros [= <- <-]. split; [cbn; apply lookup_insert_eq|].
      right. exists reloaded. split; [first [assumption|reflexivity]|].
      left. first [assumption|reflexivity].
  - intros [= <- <-]. split; [cbn; apply lookup_insert_eq|].
    left. first [assumption|reflexivity].
Qed.

End Ends.

Lemma success_means_artifact_witness :
  exists model,
    fit (sample_library false) tt tt = Ok model /\
    files (snd (train_iris_model (sample_library false) empty_world)) !! model_filename =
      Some (pickle (sample_library false) model).
Proof.
  destruct (success_means_artifact (sample_library false) empty_world
              (snd (train_iris_model (sample_library false) empty_world)) eq_refl)
    as (iris & X_train & X_test & y_train & y_test & model & _ & _ & _ &
        _ & _ & Hfit & _ & Hfile & _).
  exists model. destruct X_train, y_train. split; [exact Hfit | exact Hfile].
Defined.


Lemma failed_self_check_leaves_artifact_witness :
  files (snd (train_iris_model unloadable_library empty_world)) !! model_filename =
  Some sample_pickle.
Proof.
  apply (failed_self_check_leaves_artifact unloadable_library sample_iris
           tt tt tt tt tt tt float_one "report" eq_refl eq_refl eq_refl eq_refl
           eq_refl eq_refl eq_refl empty_world
           (snd (train_iris_model unloadable_library empty_world))
           (Exn OtherException "unsupported pickle protocol: 5") eq_refl).
Defined.

(** *** What can be found in the artifact file *)

Section Artifact.

Context {Arr Mdl : Type}.
Variable lib : Library Arr Mdl.


End Artifact.

End TrainMore.
